(** * Attendance system backend (backend/index.js)

    A shallow embedding of the Express application of [backend/index.js]:
    the nine route handlers, written in a small monad that threads the
    connection pool's store, the responses sent on [res], the lines written
    by [console.error] and the statements handed to [pool.query]; and a
    relational reading of the eight SQL statements the handlers issue,
    over the two tables [students] and [attendance]. *)

From Stdlib Require Import ZArith String Ascii List.
From stdpp Require Import gmap strings list sorting pretty.

Local Open Scope Z_scope.

(** ** Data model *)

(** A calendar date, as held in the [date] column. *)
Record Date := mkDate { year : Z; month : Z; day : Z }.

(** A row of [students]. A column holding SQL NULL is [None]. *)
Record Student := mkStudent {
  student_id : Z;
  name : option string;
  roll_number : option string
}.

(** A row of [attendance]. *)
Record Attendance := mkAttendance {
  attendance_id : Z;
  a_student_id : option Z;
  date : option Date;
  status : option string
}.

(** A row of the join selected by [GET /attendance]:
    [a.attendance_id, s.name, s.roll_number, a.date, a.status]. *)
Record AttendanceView := mkView {
  v_attendance_id : Z;
  v_name : option string;
  v_roll_number : option string;
  v_date : option Date;
  v_status : option string
}.

(** An element of [result.rows]. *)
Inductive Row :=
| RStudent (s : Student)
| RAttendance (a : Attendance)
| RView (v : AttendanceView).

Global Instance Date_eq_dec : EqDecision Date.
Proof. solve_decision. Defined.
Global Instance Student_eq_dec : EqDecision Student.
Proof. solve_decision. Defined.
Global Instance Attendance_eq_dec : EqDecision Attendance.
Proof. solve_decision. Defined.
Global Instance AttendanceView_eq_dec : EqDecision AttendanceView.
Proof. solve_decision. Defined.
Global Instance Row_eq_dec : EqDecision Row.
Proof. solve_decision. Defined.

(** ** JavaScript values reaching the handlers *)

(** The values a handler reads out of [req.body] and [req.params]: JSON
    scalars, and [undefined] for a property that is not there. Numbers are
    the integral ones. *)
Inductive JsValue :=
| JsUndefined
| JsNull
| JsBool (b : bool)
| JsNumber (n : Z)
| JsString (s : string).

Global Instance JsValue_eq_dec : EqDecision JsValue.
Proof. solve_decision. Defined.

(** [req]: the [:id] segment of the path ([req.params.id], a string) and the
    object parsed by [express.json()]. *)
Record Request := mkRequest {
  params_id : string;
  body : gmap string JsValue
}.

(** [const { k } = req.body]: the property, or [undefined]. *)
Definition prop (o : gmap string JsValue) (k : string) : JsValue :=
  default JsUndefined (o !! k).

(** ** Statements handed to [pool.query]

    One constructor per statement text of [index.js], carrying the array of
    values bound to [$1], [$2], ... in that order. *)
Inductive Statement :=
| SelectStudents
    (* SELECT * FROM students ORDER BY student_id ASC *)
| SelectAttendance
    (* SELECT a.attendance_id, s.name, s.roll_number, a.date, a.status
       FROM attendance a JOIN students s ON a.student_id = s.student_id
       ORDER BY a.date DESC *)
| InsertStudent (p_name p_roll_number : JsValue)
    (* INSERT INTO students (name, roll_number) VALUES ($1, $2) RETURNING * *)
| InsertAttendance (p_student_id p_date p_status : JsValue)
    (* INSERT INTO attendance (student_id, date, status)
       VALUES ($1, $2, $3) RETURNING * *)
| UpdateStudent (p_name p_roll_number p_id : JsValue)
    (* UPDATE students SET name = $1, roll_number = $2
       WHERE student_id = $3 RETURNING * *)
| UpdateAttendance (p_status p_id : JsValue)
    (* UPDATE attendance SET status = $1 WHERE attendance_id = $2 RETURNING * *)
| DeleteStudent (p_id : JsValue)
    (* DELETE FROM students WHERE student_id = $1 RETURNING * *)
| DeleteAttendance (p_id : JsValue)
    (* DELETE FROM attendance WHERE attendance_id = $1 RETURNING * *).

Global Instance Statement_eq_dec : EqDecision Statement.
Proof. solve_decision. Defined.

(** A statement that only reads. *)
Definition is_select (q : Statement) : bool :=
  match q with
  | SelectStudents | SelectAttendance => true
  | _ => false
  end.

(** What a rejected [pool.query] promise carries. *)
Inductive DbError :=
| ConnectionFailure
| InvalidTextRepresentation
| CheckViolation
| UniqueViolation
| ForeignKeyViolation.

Global Instance DbError_eq_dec : EqDecision DbError.
Proof. solve_decision. Defined.

(** What a fulfilled [pool.query] promise carries. *)
Record QueryResult := mkResult {
  rows : list Row;
  rowCount : nat
}.

(** ** Responses *)

(** The argument of [res.json] / [res.send]. [None] in a row position is
    [result.rows[0]] of an empty array, that is [undefined]. *)
Inductive Body :=
| BText (s : string)
| BRows (rs : list Row)
| BRow (r : option Row)
| BError (error : string)
| BDeleted (message : string) (deleted : option Row).

Record Response := mkResponse {
  status_code : Z;
  payload : Body
}.

(** A body of the shape [{ error: ... }]. *)
Definition is_error_body (b : Body) : bool :=
  match b with BError _ => true | _ => false end.

(** ** The handler monad *)

Section Handlers.
(** The store behind the pool, and what [pool.query] does with a
    statement: reject or fulfil, and leave the store in a new state. *)
Context {DB : Type}.
Variable query : Statement -> DB -> (DbError + QueryResult) * DB.

(** Everything a handler can touch. *)
Record World := mkWorld {
  store : DB;
  sent : list Response;       (* responses written to [res] *)
  console : list DbError;     (* arguments of [console.error] *)
  issued : list Statement     (* calls of [pool.query] *)
}.

(** How a block of statements ends: it runs to its end, executes a
    [return], or throws. *)
Inductive Completion (A : Type) :=
| Normal (a : A)
| Returned
| Thrown (e : DbError).
Arguments Normal {A} a.
Arguments Returned {A}.
Arguments Thrown {A} e.

Definition M (A : Type) : Type := World -> Completion A * World.

Definition ret {A} (a : A) : M A := fun w => (Normal a, w).

Definition bind {A B} (m : M A) (k : A -> M B) : M B :=
  fun w =>
    match m w with
    | (Normal a, w') => k a w'
    | (Returned, w') => (Returned, w')
    | (Thrown e, w') => (Thrown e, w')
    end.

Notation "x <- m ;; k" := (bind m (fun x => k))
  (at level 100, m at next level, right associativity).
Notation "m ;;; k" := (bind m (fun _ => k))
  (at level 100, right associativity).

(** [return;] *)
Definition js_return {A} : M A := fun w => (Returned, w).

(** [try { b } catch (err) { h }] *)
Definition try_catch (b : M unit) (h : DbError -> M unit) : M unit :=
  fun w =>
    match b w with
    | (Thrown e, w') => h e w'
    | r => r
    end.

(** [await pool.query(text, values)] *)
Definition pool_query (q : Statement) : M QueryResult :=
  fun w =>
    let '(o, s') := query q (store w) in
    let w' := mkWorld s' (sent w) (console w) (issued w ++ [q]) in
    match o with
    | inl e => (Thrown e, w')
    | inr r => (Normal r, w')
    end.

(** [console.error(err)] *)
Definition console_error (e : DbError) : M unit :=
  fun w => (Normal tt, mkWorld (store w) (sent w) (console w ++ [e]) (issued w)).

Definition respond (r : Response) : M unit :=
  fun w => (Normal tt, mkWorld (store w) (sent w ++ [r]) (console w) (issued w)).

(** [res.send(text)] *)
Definition res_send (s : string) : M unit := respond (mkResponse 200 (BText s)).
(** [res.json(b)]: the status stays at its default, 200. *)
Definition res_json (b : Body) : M unit := respond (mkResponse 200 b).
(** [res.status(code).json(b)] *)
Definition res_status_json (code : Z) (b : Body) : M unit :=
  respond (mkResponse code b).

(** [result.rows[0]] *)
Definition rows0 (r : QueryResult) : option Row := head (rows r).

(** ** The routes *)

(** [app.get("/")] *)
Definition get_root (req : Request) : M unit :=
  res_send "Attendance System Backend is running!".

(** [app.get("/students")] *)
Definition get_students (req : Request) : M unit :=
  try_catch
    (result <- pool_query SelectStudents ;;
     res_json (BRows (rows result)))
    (fun err =>
       console_error err ;;;
       res_status_json 500 (BError "Database query failed")).

(** [app.get("/attendance")] *)
Definition get_attendance (req : Request) : M unit :=
  try_catch
    (result <- pool_query SelectAttendance ;;
     res_json (BRows (rows result)))
    (fun err =>
       console_error err ;;;
       res_status_json 500 (BError "Database query failed")).

(** [app.post("/students")] *)
Definition post_students (req : Request) : M unit :=
  try_catch
    (let name := prop (body req) "name" in
     let roll_number := prop (body req) "roll_number" in
     result <- pool_query (InsertStudent name roll_number) ;;
     res_status_json 201 (BRow (rows0 result)))
    (fun err =>
       console_error err ;;;
       res_status_json 500 (BError "Failed to add student")).

(** [app.post("/attendance")] *)
Definition post_attendance (req : Request) : M unit :=
  try_catch
    (let student_id := prop (body req) "student_id" in
     let date := prop (body req) "date" in
     let status := prop (body req) "status" in
     result <- pool_query (InsertAttendance student_id date status) ;;
     res_status_json 201 (BRow (rows0 result)))
    (fun err =>
       console_error err ;;;
       res_status_json 500 (BError "Failed to mark attendance")).

(** [app.put("/students/:id")] *)
Definition put_students (req : Request) : M unit :=
  try_catch
    (let id := JsString (params_id req) in
     let name := prop (body req) "name" in
     let roll_number := prop (body req) "roll_number" in
     result <- pool_query (UpdateStudent name roll_number id) ;;
     (if decide (rowCount result = 0%nat)
      then res_status_json 404 (BError "Student not found") ;;; js_return
      else ret tt) ;;;
     res_json (BRow (rows0 result)))
    (fun err =>
       console_error err ;;;
       res_status_json 500 (BError "Failed to update student")).

(** [app.put("/attendance/:id")] *)
Definition put_attendance (req : Request) : M unit :=
  try_catch
    (let id := JsString (params_id req) in
     let status := prop (body req) "status" in
     result <- pool_query (UpdateAttendance status id) ;;
     (if decide (rowCount result = 0%nat)
      then res_status_json 404 (BError "Attendance record not found") ;;; js_return
      else ret tt) ;;;
     res_json (BRow (rows0 result)))
    (fun err =>
       console_error err ;;;
       res_status_json 500 (BError "Failed to update attendance")).

(** [app.delete("/students/:id")] *)
Definition delete_students (req : Request) : M unit :=
  try_catch
    (let id := JsString (params_id req) in
     result <- pool_query (DeleteStudent id) ;;
     (if decide (rowCount result = 0%nat)
      then res_status_json 404 (BError "Student not found") ;;; js_return
      else ret tt) ;;;
     res_json (BDeleted "Student deleted successfully" (rows0 result)))
    (fun err =>
       console_error err ;;;
       res_status_json 500 (BError "Failed to delete student")).

(** [app.delete("/attendance/:id")] *)
Definition delete_attendance (req : Request) : M unit :=
  try_catch
    (let id := JsString (params_id req) in
     result <- pool_query (DeleteAttendance id) ;;
     (if decide (rowCount result = 0%nat)
      then res_status_json 404 (BError "Attendance record not found") ;;; js_return
      else ret tt) ;;;
     res_json (BDeleted "Attendance deleted successfully" (rows0 result)))
    (fun err =>
       console_error err ;;;
       res_status_json 500 (BError "Failed to delete attendance")).

(** The eight routes that query the store. *)
Inductive Route :=
| GET_students
| GET_attendance
| POST_students
| POST_attendance
| PUT_students_id
| PUT_attendance_id
| DELETE_students_id
| DELETE_attendance_id.

(** The routing table: the callback registered for each route. *)
Definition app (r : Route) : Request -> M unit :=
  match r with
  | GET_students => get_students
  | GET_attendance => get_attendance
  | POST_students => post_students
  | POST_attendance => post_attendance
  | PUT_students_id => put_students
  | PUT_attendance_id => put_attendance
  | DELETE_students_id => delete_students
  | DELETE_attendance_id => delete_attendance
  end.

(** The [error] text of the route's [catch] block. *)
Definition catch_message (r : Route) : string :=
  match r with
  | GET_students | GET_attendance => "Database query failed"
  | POST_students => "Failed to add student"
  | POST_attendance => "Failed to mark attendance"
  | PUT_students_id => "Failed to update student"
  | PUT_attendance_id => "Failed to update attendance"
  | DELETE_students_id => "Failed to delete student"
  | DELETE_attendance_id => "Failed to delete attendance"
  end.

(** A request arrives at a server that has sent and logged nothing yet. *)
Definition fresh (s : DB) : World := mkWorld s [] [] [].

(** Serving one request on a route, from store [s]. *)
Definition serve (r : Route) (req : Request) (s : DB) : Completion unit * World :=
  app r req (fresh s).

End Handlers.

Arguments World : clear implicits.
Arguments Normal {A} a.
Arguments Returned {A}.
Arguments Thrown {A} e.

(** ** The store: PostgreSQL's reading of the eight statements *)

(** [pg]'s [prepareValue]: [null] and [undefined] are both sent as NULL,
    every other scalar as its [toString()] text. *)
Definition prepareValue (v : JsValue) : option string :=
  match v with
  | JsUndefined | JsNull => None
  | JsBool true => Some "true"
  | JsBool false => Some "false"
  | JsNumber n => Some (pretty n)
  | JsString s => Some s
  end.

(** What the foreign key of [attendance.student_id] does when a referenced
    student is deleted. *)
Inductive OnDelete := NoAction | Cascade | SetNull.

(** Modelled from the spec: the table definitions (the CREATE TABLE
    statements) are not among the sources. The spec gives [student_id] and
    [attendance_id] as generated integer primary keys, [name],
    [roll_number] and [status] as text, [date] as a date, and
    [attendance.student_id] as a foreign key to [students] that the store
    enforces at insert time. What it leaves open is a parameter here: the
    input functions of the integer and date types, whether the store takes
    a row of either table (NOT NULL, CHECK, length limits, a text its
    column refuses), and the foreign key's
    action on delete. The foreign key is PostgreSQL's: it is checked on a
    [student_id] that is not NULL, and a NULL [student_id] passes it. *)
Record Schema := mkSchema {
  int_in : string -> option Z;
  date_in : string -> option Date;
  student_ok : Student -> bool;
  attendance_ok : Attendance -> bool;
  on_delete : OnDelete
}.

(** The two tables in storage order, and the next value of either id
    sequence. *)
Record Tables := mkTables {
  students : list Student;
  attendance : list Attendance;
  students_seq : Z;
  attendance_seq : Z
}.

(** Binding a parameter to a column of a given type: NULL stays NULL, a
    text the type's input function refuses is an error. *)
Definition bind_as {A} (input : string -> option A) (v : JsValue)
  : option (option A) :=
  match prepareValue v with
  | None => Some None
  | Some txt =>
      match input txt with
      | Some a => Some (Some a)
      | None => None
      end
  end.

(** Lexicographic comparison of dates. *)
Definition date_compare (d1 d2 : Date) : comparison :=
  match (year d1 ?= year d2)%Z with
  | Eq => match (month d1 ?= month d2)%Z with
          | Eq => (day d1 ?= day d2)%Z
          | c => c
          end
  | c => c
  end.

Definition date_le (d1 d2 : Date) : Prop := date_compare d1 d2 <> Gt.

(** [ORDER BY ... DESC] on a nullable date: NULL sorts as larger than every
    date, so it comes first. *)
Definition date_desc (x y : option Date) : Prop :=
  match x, y with
  | None, _ => True
  | Some _, None => False
  | Some a, Some b => date_le b a
  end.

Definition by_student_id (s1 s2 : Student) : Prop :=
  student_id s1 <= student_id s2.

Definition by_date_desc (v1 v2 : AttendanceView) : Prop :=
  date_desc (v_date v1) (v_date v2).

Global Instance date_le_dec d1 d2 : Decision (date_le d1 d2).
Proof. unfold date_le. apply _. Defined.
Global Instance date_desc_dec x y : Decision (date_desc x y).
Proof. destruct x, y; simpl; apply _. Defined.
Global Instance by_student_id_dec : RelDecision by_student_id.
Proof. intros s1 s2. unfold by_student_id. apply _. Defined.
Global Instance by_date_desc_dec : RelDecision by_date_desc.
Proof. intros v1 v2. unfold by_date_desc. apply _. Defined.

(** [FROM attendance a JOIN students s ON a.student_id = s.student_id],
    projected to the five selected columns. *)
Definition join_row (a : Attendance) (s : Student) : AttendanceView :=
  mkView (attendance_id a) (name s) (roll_number s) (date a) (status a).

Definition joined (t : Tables) : list AttendanceView :=
  a ← attendance t;
  s ← filter (fun s => a_student_id a = Some (student_id s)) (students t);
  [join_row a s].

Definition set_student (n r : option string) (s : Student) : Student :=
  mkStudent (student_id s) n r.

Definition set_status (st : option string) (a : Attendance) : Attendance :=
  mkAttendance (attendance_id a) (a_student_id a) (date a) st.

Definition set_student_id (sid : option Z) (a : Attendance) : Attendance :=
  mkAttendance (attendance_id a) sid (date a) (status a).

Definition returning (rs : list Row) : QueryResult := mkResult rs (length rs).

Definition with_students (t : Tables) (l : list Student) : Tables :=
  mkTables l (attendance t) (students_seq t) (attendance_seq t).

Definition with_attendance (t : Tables) (l : list Attendance) : Tables :=
  mkTables (students t) l (students_seq t) (attendance_seq t).

Definition references (z : Z) (a : Attendance) : Prop := a_student_id a = Some z.

Global Instance references_dec z a : Decision (references z a).
Proof. unfold references. apply _. Defined.

(** The foreign key of [attendance.student_id]: NULL passes, any other
    value has to be the [student_id] of a stored student. *)
Definition fk_holds (sid : option Z) (l : list Student) : Prop :=
  sid = None \/ Exists (fun s => sid = Some (student_id s)) l.

Global Instance fk_holds_dec sid l : Decision (fk_holds sid l).
Proof. unfold fk_holds. apply _. Defined.

Section Postgres.
Variable sch : Schema.

(** [UPDATE students SET name = n, roll_number = r WHERE student_id = z] *)
Definition update_students (n r : option string) (z : Z) (l : list Student)
  : list Student :=
  (fun s => if decide (student_id s = z) then set_student n r s else s) <$> l.

(** [UPDATE attendance SET status = st WHERE attendance_id = z] *)
Definition update_attendance (st : option string) (z : Z) (l : list Attendance)
  : list Attendance :=
  (fun a => if decide (attendance_id a = z) then set_status st a else a) <$> l.

(** The attendance table after the students with id [z] are gone, under
    the foreign key's action; an error when the store refuses. *)
Definition after_delete (z : Z) (l : list Attendance)
  : DbError + list Attendance :=
  match on_delete sch with
  | NoAction =>
      if decide (Exists (references z) l) then inl ForeignKeyViolation else inr l
  | Cascade => inr (filter (fun a => ~ references z a) l)
  | SetNull =>
      let l' := (fun a => if decide (references z a)
                          then set_student_id None a else a) <$> l in
      if forallb (attendance_ok sch) l' then inr l' else inl CheckViolation
  end.

(** What the store answers to a statement that reaches it, and the
    tables it leaves. Parameters are bound first (a text the column's
    type refuses rejects the statement before any row is touched); an
    inserted or rewritten row is then checked against the row
    constraints, the primary key and the foreign key, in that order, and
    a rejected statement changes no row. A pool that cannot reach the
    store is a different [query]; see [unreachable]. *)
Definition exec (q : Statement) (t : Tables) : (DbError + QueryResult) * Tables :=
  match q with
  | SelectStudents =>
      (inr (returning (RStudent <$> merge_sort by_student_id (students t))), t)
  | SelectAttendance =>
      (inr (returning (RView <$> merge_sort by_date_desc (joined t))), t)
  | InsertStudent p_name p_roll =>
      let row := mkStudent (students_seq t) (prepareValue p_name) (prepareValue p_roll) in
      let t1 := mkTables (students t) (attendance t) (students_seq t + 1) (attendance_seq t) in
      if negb (student_ok sch row) then (inl CheckViolation, t1)
      else if decide (Exists (fun s => student_id s = student_id row) (students t))
      then (inl UniqueViolation, t1)
      else (inr (returning [RStudent row]), with_students t1 (students t ++ [row]))
  | InsertAttendance p_sid p_date p_status =>
      match bind_as (int_in sch) p_sid, bind_as (date_in sch) p_date with
      | Some sid, Some d =>
          let row := mkAttendance (attendance_seq t) sid d (prepareValue p_status) in
          let t1 := mkTables (students t) (attendance t) (students_seq t) (attendance_seq t + 1) in
          if negb (attendance_ok sch row) then (inl CheckViolation, t1)
          else if decide (Exists (fun a => attendance_id a = attendance_id row) (attendance t))
          then (inl UniqueViolation, t1)
          else if decide (fk_holds sid (students t))
          then (inr (returning [RAttendance row]), with_attendance t1 (attendance t ++ [row]))
          else (inl ForeignKeyViolation, t1)
      | _, _ => (inl InvalidTextRepresentation, t)
      end
  | UpdateStudent p_name p_roll p_id =>
      match bind_as (int_in sch) p_id with
      | None => (inl InvalidTextRepresentation, t)
      | Some None => (inr (returning []), t)
      | Some (Some z) =>
          let n := prepareValue p_name in
          let r := prepareValue p_roll in
          let hit := set_student n r <$> filter (fun s => student_id s = z) (students t) in
          if forallb (student_ok sch) hit
          then (inr (returning (RStudent <$> hit)),
                with_students t (update_students n r z (students t)))
          else (inl CheckViolation, t)
      end
  | UpdateAttendance p_status p_id =>
      match bind_as (int_in sch) p_id with
      | None => (inl InvalidTextRepresentation, t)
      | Some None => (inr (returning []), t)
      | Some (Some z) =>
          let st := prepareValue p_status in
          let hit := set_status st <$> filter (fun a => attendance_id a = z) (attendance t) in
          if forallb (attendance_ok sch) hit
          then (inr (returning (RAttendance <$> hit)),
                with_attendance t (update_attendance st z (attendance t)))
          else (inl CheckViolation, t)
      end
  | DeleteStudent p_id =>
      match bind_as (int_in sch) p_id with
      | None => (inl InvalidTextRepresentation, t)
      | Some None => (inr (returning []), t)
      | Some (Some z) =>
          let hit := filter (fun s => student_id s = z) (students t) in
          let rest := filter (fun s => student_id s <> z) (students t) in
          match hit with
          | [] => (inr (returning []), t)
          | _ :: _ =>
              match after_delete z (attendance t) with
              | inr l => (inr (returning (RStudent <$> hit)),
                          mkTables rest l (students_seq t) (attendance_seq t))
              | inl e => (inl e, t)
              end
          end
      end
  | DeleteAttendance p_id =>
      match bind_as (int_in sch) p_id with
      | None => (inl InvalidTextRepresentation, t)
      | Some None => (inr (returning []), t)
      | Some (Some z) =>
          let hit := filter (fun a => attendance_id a = z) (attendance t) in
          let rest := filter (fun a => attendance_id a <> z) (attendance t) in
          (inr (returning (RAttendance <$> hit)), with_attendance t rest)
      end
  end.

End Postgres.

(** A pool whose store cannot be reached: every query is rejected. *)
Definition unreachable {DB} (q : Statement) (s : DB) : (DbError + QueryResult) * DB :=
  (inl ConnectionFailure, s).

(** The statement a route hands to [pool.query] for a request. *)
Definition statement_of (r : Route) (req : Request) : Statement :=
  match r with
  | GET_students => SelectStudents
  | GET_attendance => SelectAttendance
  | POST_students =>
      InsertStudent (prop (body req) "name") (prop (body req) "roll_number")
  | POST_attendance =>
      InsertAttendance (prop (body req) "student_id") (prop (body req) "date")
        (prop (body req) "status")
  | PUT_students_id =>
      UpdateStudent (prop (body req) "name") (prop (body req) "roll_number")
        (JsString (params_id req))
  | PUT_attendance_id =>
      UpdateAttendance (prop (body req) "status") (JsString (params_id req))
  | DELETE_students_id => DeleteStudent (JsString (params_id req))
  | DELETE_attendance_id => DeleteAttendance (JsString (params_id req))
  end.

(** Routes whose handler tests [result.rowCount === 0]. *)
Definition checks_row_count (r : Route) : bool :=
  match r with
  | PUT_students_id | PUT_attendance_id
  | DELETE_students_id | DELETE_attendance_id => true
  | _ => false
  end.

(** ** A concrete schema

    Decimal integers, ISO dates, no row constraint, and the foreign key's
    default action: the tables a plain
    [student_id INT REFERENCES students(student_id)] gives. *)

Definition digit (c : ascii) : option Z :=
  let n := Z.of_N (N_of_ascii c) in
  if decide (48 <= n <= 57) then Some (n - 48) else None.

Fixpoint digits (s : string) (acc : Z) : option Z :=
  match s with
  | EmptyString => Some acc
  | String c s' =>
      match digit c with
      | Some d => digits s' (10 * acc + d)
      | None => None
      end
  end.

Definition decimal (s : string) : option Z :=
  match s with
  | EmptyString => None
  | String "-"%char (String _ _ as s') => Z.opp <$> digits s' 0
  | _ => digits s 0
  end.

Definition iso_date (s : string) : option Date :=
  if decide (String.length s = 10%nat /\ substring 4 1 s = "-" /\ substring 7 1 s = "-")
  then
    y ← digits (substring 0 4 s) 0;
    m ← digits (substring 5 2 s) 0;
    d ← digits (substring 8 2 s) 0;
    if decide (1 <= m <= 12 /\ 1 <= d <= 31) then Some (mkDate y m d) else None
  else None.

Definition plain_schema : Schema :=
  mkSchema decimal iso_date (fun _ => true) (fun _ => true) NoAction.

(** The application on a PostgreSQL store with schema [sch]. *)
Definition pg_serve (sch : Schema) (r : Route) (req : Request) (t : Tables)
  : Completion unit * World Tables :=
  serve (exec sch) r req t.

(** The single response of a served request, when there is exactly one. *)
Definition response {DB} (out : Completion unit * World DB) : option Response :=
  match sent (snd out) with
  | [r] => Some r
  | _ => None
  end.

(** ** Sample data *)

Definition amit : Student := mkStudent 1 (Some "Amit") (Some "101").
Definition bela : Student := mkStudent 2 (Some "Bela") (Some "102").

(** Two students, stored out of id order, and no attendance yet. *)
Definition two_students : Tables := mkTables [bela; amit] [] 3 1.

Definition no_body : gmap string JsValue := ∅.

(** One attendance record of [amit], and a request to mark it absent. *)
Definition one_record : Tables :=
  mkTables [bela; amit]
    [mkAttendance 1 (Some 1) (Some (mkDate 2024 1 1)) (Some "present")] 3 2.

Definition mark_absent : Request :=
  mkRequest "1" {[ "status"%string := JsString "absent" ]}.

(** Marking attendance on 2024-01-01 for the student with a given id. *)
Definition mark_present (sid : Z) : Request :=
  mkRequest "" {[ "student_id"%string := JsNumber sid;
                  "date"%string := JsString "2024-01-01";
                  "status"%string := JsString "present" ]}.

(** A January record stored before a February one. *)
Definition january_then_february : Tables :=
  mkTables [bela; amit]
    [mkAttendance 1 (Some 1) (Some (mkDate 2024 1 1)) (Some "present");
     mkAttendance 2 (Some 2) (Some (mkDate 2024 2 1)) (Some "absent")] 3 3.

Definition january_view : AttendanceView :=
  mkView 1 (Some "Amit") (Some "101") (Some (mkDate 2024 1 1)) (Some "present").

Definition february_view : AttendanceView :=
  mkView 2 (Some "Bela") (Some "102") (Some (mkDate 2024 2 1)) (Some "absent").

(** Every endpoint the application registers: [GET /] and the eight routes
    that query the store. *)
Inductive Endpoint := Root | Api (r : Route).

(** The callback registered for an endpoint. *)
Definition handle {DB} (query : Statement -> DB -> (DbError + QueryResult) * DB)
    (ep : Endpoint) : Request -> M unit :=
  match ep with
  | Root => get_root
  | Api r => app query r
  end.

(** The two routes that create a row. *)
Definition is_post (r : Route) : bool :=
  match r with
  | POST_students | POST_attendance => true
  | _ => false
  end.

(** A request to create a student, the row it creates in [two_students],
    and a request that carries only a path id. *)
Definition new_student : Request :=
  mkRequest "" {[ "name"%string := JsString "Chen";
                  "roll_number"%string := JsString "103" ]}.

Definition chen : Student := mkStudent 3 (Some "Chen") (Some "103").

Definition by_id (id : string) : Request := mkRequest id no_body.

(** Marking attendance with no [student_id] in the body, and with one
    that is not a number. *)
Definition mark_without_student : Request :=
  mkRequest "" {[ "date"%string := JsString "2024-01-01";
                  "status"%string := JsString "present" ]}.

Definition mark_unreadable_student : Request :=
  mkRequest "" {[ "student_id"%string := JsString "abc";
                  "date"%string := JsString "2024-01-01";
                  "status"%string := JsString "present" ]}.

(** ** Running a handler *)

Ltac run_handler :=
  unfold pg_serve, serve, fresh, app, get_students, get_attendance,
    post_students, post_attendance, put_students, put_attendance,
    delete_students, delete_attendance, try_catch, bind, pool_query,
    console_error, res_json, res_status_json, res_send, respond, js_return,
    ret; simpl.

(** ** The orderings of the two listings *)

Lemma date_le_total (d1 d2 : Date) : date_le d1 d2 \/ date_le d2 d1.
Proof.
  unfold date_le, date_compare.
  destruct (Z.compare_spec (year d1) (year d2)),
    (Z.compare_spec (year d2) (year d1)); try lia; try (left; congruence);
    try (right; congruence).
  destruct (Z.compare_spec (month d1) (month d2)),
    (Z.compare_spec (month d2) (month d1)); try lia; try (left; congruence);
    try (right; congruence).
  destruct (Z.compare_spec (day d1) (day d2)),
    (Z.compare_spec (day d2) (day d1)); try lia; try (left; congruence);
    try (right; congruence).
Qed.

Lemma date_le_trans (d1 d2 d3 : Date) :
  date_le d1 d2 -> date_le d2 d3 -> date_le d1 d3.
Proof.
  unfold date_le, date_compare.
  destruct (Z.compare_spec (year d1) (year d2)); try congruence;
  destruct (Z.compare_spec (year d2) (year d3)); try congruence;
  destruct (Z.compare_spec (year d1) (year d3)); try congruence; try lia;
  destruct (Z.compare_spec (month d1) (month d2)); try congruence;
  destruct (Z.compare_spec (month d2) (month d3)); try congruence;
  destruct (Z.compare_spec (month d1) (month d3)); try congruence; try lia;
  destruct (Z.compare_spec (day d1) (day d2)); try congruence;
  destruct (Z.compare_spec (day d2) (day d3)); try congruence;
  destruct (Z.compare_spec (day d1) (day d3)); try congruence; lia.
Qed.

Global Instance by_student_id_total : Total by_student_id.
Proof. intros s1 s2. unfold by_student_id. lia. Qed.

Global Instance by_student_id_trans : Transitive by_student_id.
Proof. intros s1 s2 s3. unfold by_student_id. lia. Qed.

Global Instance by_date_desc_total : Total by_date_desc.
Proof.
  intros v1 v2. unfold by_date_desc, date_desc.
  destruct (v_date v1), (v_date v2); auto using date_le_total.
Qed.

Global Instance by_date_desc_trans : Transitive by_date_desc.
Proof.
  intros v1 v2 v3. unfold by_date_desc, date_desc.
  destruct (v_date v1), (v_date v2), (v_date v3); eauto using date_le_trans; tauto.
Qed.

(** In a list sorted by a transitive order, an element at a smaller index
    is related to every element at a larger one. *)
Lemma StronglySorted_lookup {A} (R : relation A) (l : list A) (i j : nat) (x y : A) :
  StronglySorted R l -> l !! i = Some x -> l !! j = Some y -> (i < j)%nat -> R x y.
Proof.
  intros Hs. revert i j. induction Hs as [|a l Hs IH Hall]; intros i j Hi Hj Hlt.
  - by rewrite lookup_nil in Hi.
  - destruct j as [|j]; [lia|]. simpl in Hj. destruct i as [|i].
    + simpl in Hi. injection Hi as ->.
      rewrite Forall_forall in Hall. apply Hall.
      eapply list_elem_of_lookup_2. exact Hj.
    + simpl in Hi. apply (IH i j); auto. lia.
Qed.

(** The join, row by row. *)
Lemma elem_of_joined (t : Tables) (v : AttendanceView) :
  v ∈ joined t <->
  exists a s, a ∈ attendance t /\ s ∈ students t /\
              a_student_id a = Some (student_id s) /\ v = join_row a s.
Proof.
  unfold joined. rewrite list_elem_of_bind. split.
  - intros (a & Hv & Ha). apply list_elem_of_bind in Hv as (s & Hv & Hs).
    apply list_elem_of_filter in Hs as [Heq Hs].
    apply list_elem_of_singleton in Hv. eauto 10.
  - intros (a & s & Ha & Hs & Heq & ->). exists a. split; [|done].
    apply list_elem_of_bind. exists s. split; [apply list_elem_of_singleton; done|].
    apply list_elem_of_filter. done.
Qed.

(** ** The handlers, for any pool *)

Section AnyPool.
Context {DB : Type} (query : Statement -> DB -> (DbError + QueryResult) * DB).

(** A rejected query: the [catch] block logs and answers 500. *)
Lemma app_rejected (r : Route) (req : Request) (w : World DB) e s' :
  query (statement_of r req) (store w) = (inl e, s') ->
  app query r req w =
    (Normal tt,
     mkWorld s' (sent w ++ [mkResponse 500 (BError (catch_message r))])
       (console w ++ [e]) (issued w ++ [statement_of r req])).
Proof.
  intros Hq. destruct r; run_handler; simpl in Hq; rewrite Hq; reflexivity.
Qed.

(** A fulfilled query: one success or 404 response, nothing logged. *)
Lemma app_fulfilled (r : Route) (req : Request) (w : World DB) res s' :
  query (statement_of r req) (store w) = (inr res, s') ->
  exists c resp,
    app query r req w =
      (c, mkWorld s' (sent w ++ [resp]) (console w)
            (issued w ++ [statement_of r req])) /\
    (forall e, c <> Thrown e) /\
    (status_code resp = 404 <->
       checks_row_count r = true /\ rowCount res = 0%nat) /\
    (status_code resp = 200 \/ status_code resp = 201 \/ status_code resp = 404).
Proof.
  intros Hq.
  destruct r; run_handler; simpl in Hq; rewrite Hq; simpl;
    try case_decide; simpl; eexists _, _;
    (split; [reflexivity|]); simpl;
    (split; [congruence|]); (split; [|auto]);
    split; try lia; try tauto; try (intros [? ?]; congruence); intros; lia.
Qed.

End AnyPool.

(** C7. On every route, when [pool.query] rejects with an error [e]
    (whatever its cause), the handler answers with status 500 and the
    route's fixed [{ error: ... }] body, which is chosen by the route alone
    and carries nothing of [e]; [e] itself goes to [console.error]; and the
    statement is handed to the pool once, not again. *)
Theorem store_failure_is_500 {DB} (query : Statement -> DB -> (DbError + QueryResult) * DB)
    (r : Route) (req : Request) (w : World DB) (e : DbError) (s' : DB) :
  query (statement_of r req) (store w) = (inl e, s') ->
  sent (snd (app query r req w)) =
    sent w ++ [mkResponse 500 (BError (catch_message r))] /\
  console (snd (app query r req w)) = console w ++ [e] /\
  issued (snd (app query r req w)) = issued w ++ [statement_of r req] /\
  store (snd (app query r req w)) = s'.
Proof.
  intros Hq. rewrite (app_rejected query r req w e s' Hq). simpl. auto.
Qed.

Lemma store_failure_is_500_witness :
  unreachable (statement_of POST_students (mkRequest "" no_body)) two_students
    = (inl ConnectionFailure, two_students) /\
  sent (snd (app unreachable POST_students (mkRequest "" no_body) (fresh two_students)))
    = [mkResponse 500 (BError "Failed to add student")] /\
  console (snd (app unreachable POST_students (mkRequest "" no_body) (fresh two_students)))
    = [ConnectionFailure].
Proof.
  split; [reflexivity|].
  destruct (store_failure_is_500 unreachable POST_students (mkRequest "" no_body)
              (fresh two_students) ConnectionFailure two_students eq_refl)
    as (Hsent & Hlog & _).
  split; [exact Hsent | exact Hlog].
Defined.

(** C8. On each of the eight routes, whatever the pool does with the
    statement (fulfil with rows, fulfil with no row matched, or reject),
    the handler sends exactly one response and does not end by throwing:
    500 after a rejection, 404 when a route that tests [rowCount] finds it
    zero, and the success response (200 or 201) otherwise. *)
Theorem one_response_per_request {DB} (query : Statement -> DB -> (DbError + QueryResult) * DB)
    (r : Route) (req : Request) (w : World DB) :
  exists resp,
    sent (snd (app query r req w)) = sent w ++ [resp] /\
    (forall e, fst (app query r req w) <> Thrown e) /\
    match fst (query (statement_of r req) (store w)) with
    | inl _ => status_code resp = 500
    | inr res =>
        if checks_row_count r && bool_decide (rowCount res = 0%nat)
        then status_code resp = 404
        else status_code resp = 200 \/ status_code resp = 201
    end.
Proof.
  destruct (query (statement_of r req) (store w)) as [[e|res] s'] eqn:Hq; simpl.
  - rewrite (app_rejected query r req w e s' Hq). simpl.
    eexists. split; [reflexivity|]. split; [congruence|]. reflexivity.
  - destruct (app_fulfilled query r req w res s' Hq)
      as (c & resp & -> & Hc & H404 & Hst). simpl.
    exists resp. split; [reflexivity|]. split; [exact Hc|].
    destruct (checks_row_count r) eqn:Hr; simpl.
    + case_bool_decide as H0.
      * apply H404. auto.
      * destruct Hst as [?|[?|H4]]; auto. apply H404 in H4 as [_ ?]. done.
    + destruct Hst as [?|[?|H4]]; auto. apply H404 in H4 as [? _]. done.
Qed.

(** ** The two listings on a PostgreSQL store *)

Lemma pg_get_students (sch : Schema) (req : Request) (t : Tables) :
  pg_serve sch GET_students req t =
    (Normal tt,
     mkWorld t
       [mkResponse 200 (BRows (RStudent <$> merge_sort by_student_id (students t)))]
       [] [SelectStudents]).
Proof. reflexivity. Qed.

Lemma pg_get_attendance (sch : Schema) (req : Request) (t : Tables) :
  pg_serve sch GET_attendance req t =
    (Normal tt,
     mkWorld t
       [mkResponse 200 (BRows (RView <$> merge_sort by_date_desc (joined t)))]
       [] [SelectAttendance]).
Proof. reflexivity. Qed.

(** C5. In every state of the tables, [GET /attendance] answers 200 with
    an array that holds exactly the rows of the join of [attendance] with
    [students] on [student_id], each projected to
    (attendance_id, name, roll_number, date, status), in descending order
    of date. In particular a record dated 2024-02-01 stands before a record
    dated 2024-01-01, wherever the two were stored. *)
Theorem get_attendance_lists_join_by_date_desc (sch : Schema) (req : Request) (t : Tables) :
  exists l : list AttendanceView,
    response (pg_serve sch GET_attendance req t)
      = Some (mkResponse 200 (BRows (RView <$> l))) /\
    l ≡ₚ joined t /\
    (forall v, v ∈ l <->
       exists a s, a ∈ attendance t /\ s ∈ students t /\
                   a_student_id a = Some (student_id s) /\
                   v = mkView (attendance_id a) (name s) (roll_number s)
                         (date a) (status a)) /\
    StronglySorted by_date_desc l /\
    (forall i j jan feb,
       l !! i = Some feb -> l !! j = Some jan ->
       v_date feb = Some (mkDate 2024 2 1) ->
       v_date jan = Some (mkDate 2024 1 1) ->
       (i < j)%nat).
Proof.
  exists (merge_sort by_date_desc (joined t)).
  assert (Hp : merge_sort by_date_desc (joined t) ≡ₚ joined t)
    by apply merge_sort_Permutation.
  assert (Hs : StronglySorted by_date_desc (merge_sort by_date_desc (joined t)))
    by (apply StronglySorted_merge_sort; apply _).
  split; [rewrite pg_get_attendance; reflexivity|].
  split; [exact Hp|]. split; [|split; [exact Hs|]].
  - intros v. rewrite Hp. apply elem_of_joined.
  - intros i j jan feb Hi Hj Hfeb Hjan.
    destruct (decide (i < j)%nat) as [|Hge]; [done|exfalso].
    assert (i <> j) by (intros ->; congruence).
    assert (Hd : by_date_desc jan feb).
    { apply (StronglySorted_lookup _ _ j i jan feb Hs Hj Hi). lia. }
    unfold by_date_desc in Hd. rewrite Hjan, Hfeb in Hd. simpl in Hd.
    apply Hd. reflexivity.
Qed.

Lemma get_attendance_lists_join_by_date_desc_witness :
  exists (l : list AttendanceView) (i j : nat),
    response (pg_serve plain_schema GET_attendance (mkRequest "" no_body)
                january_then_february)
      = Some (mkResponse 200 (BRows (RView <$> l))) /\
    l = [february_view; january_view] /\
    l !! i = Some february_view /\ l !! j = Some january_view /\ (i < j)%nat.
Proof.
  destruct (get_attendance_lists_join_by_date_desc plain_schema (mkRequest "" no_body)
              january_then_february) as (l & Hresp & _ & _ & _ & Hord).
  exists l, 0%nat, 1%nat. split; [exact Hresp|].
  assert (Hl : l = [february_view; january_view]).
  { vm_compute in Hresp. destruct l as [|x [|y [|z l]]]; try discriminate Hresp.
    injection Hresp as <- <-. reflexivity. }
  split; [exact Hl|]. subst l. split; [reflexivity|]. split; [reflexivity|].
  exact (Hord 0%nat 1%nat january_view february_view eq_refl eq_refl eq_refl eq_refl).
Defined.

(** C6. In every state of the tables, [GET /students] answers 200 with an
    array holding all rows of [students] in ascending order of
    [student_id]; and whenever the pool rejects the query, it answers 500
    with an [{ error: ... }] body. *)
Theorem get_students_lists_by_id_or_500 (req : Request) :
  (forall (sch : Schema) (t : Tables),
     exists l : list Student,
       response (pg_serve sch GET_students req t)
         = Some (mkResponse 200 (BRows (RStudent <$> l))) /\
       l ≡ₚ students t /\
       StronglySorted (fun s1 s2 => student_id s1 <= student_id s2) l) /\
  (forall DB (query : Statement -> DB -> (DbError + QueryResult) * DB)
          (s s' : DB) (e : DbError),
     query SelectStudents s = (inl e, s') ->
     exists b,
       response (serve query GET_students req s) = Some (mkResponse 500 b) /\
       is_error_body b = true).
Proof.
  split.
  - intros sch t. exists (merge_sort by_student_id (students t)).
    split; [rewrite pg_get_students; reflexivity|].
    split; [apply merge_sort_Permutation|].
    apply (StronglySorted_merge_sort by_student_id).
  - intros DB query s s' e Hq. unfold serve.
    rewrite (app_rejected query GET_students req (fresh s) e s' Hq).
    eexists. split; reflexivity.
Qed.

Lemma get_students_lists_by_id_or_500_witness :
  unreachable SelectStudents two_students = (inl ConnectionFailure, two_students) /\
  exists b,
    response (serve unreachable GET_students (mkRequest "" no_body) two_students)
      = Some (mkResponse 500 b) /\
    is_error_body b = true.
Proof.
  split; [reflexivity|].
  exact (proj2 (get_students_lists_by_id_or_500 (mkRequest "" no_body))
           Tables unreachable two_students two_students ConnectionFailure eq_refl).
Defined.

Example get_students_sample :
  response (pg_serve plain_schema GET_students (mkRequest "" no_body) two_students)
    = Some (mkResponse 200 (BRows [RStudent amit; RStudent bela])).
Proof. reflexivity. Qed.

(** C9. Handling [GET /students] or [GET /attendance] hands the pool one
    statement, a SELECT, and nothing else; on the store both tables (and
    both sequences) are afterwards what they were. *)
Theorem listings_leave_tables_unchanged (sch : Schema) (req : Request) (t : Tables) :
  (store (snd (pg_serve sch GET_students req t)) = t /\
   issued (snd (pg_serve sch GET_students req t)) = [SelectStudents]) /\
  (store (snd (pg_serve sch GET_attendance req t)) = t /\
   issued (snd (pg_serve sch GET_attendance req t)) = [SelectAttendance]) /\
  (forall q, q ∈ issued (snd (pg_serve sch GET_students req t)) ++
                 issued (snd (pg_serve sch GET_attendance req t)) ->
             is_select q = true /\ snd (exec sch q t) = t).
Proof.
  rewrite pg_get_students, pg_get_attendance. simpl.
  split; [done|]. split; [done|].
  intros q Hq. apply elem_of_cons in Hq as [->|Hq]; [done|].
  apply list_elem_of_singleton in Hq as ->. done.
Qed.

Lemma listings_leave_tables_unchanged_witness :
  SelectStudents ∈
    issued (snd (pg_serve plain_schema GET_students (mkRequest "" no_body) one_record)) ++
    issued (snd (pg_serve plain_schema GET_attendance (mkRequest "" no_body) one_record)) /\
  is_select SelectStudents = true /\
  snd (exec plain_schema SelectStudents one_record) = one_record /\
  store (snd (pg_serve plain_schema GET_attendance (mkRequest "" no_body) one_record))
    = one_record.
Proof.
  assert (Hin : SelectStudents ∈
    issued (snd (pg_serve plain_schema GET_students (mkRequest "" no_body) one_record)) ++
    issued (snd (pg_serve plain_schema GET_attendance (mkRequest "" no_body) one_record)))
    by (simpl; left).
  destruct (listings_leave_tables_unchanged plain_schema (mkRequest "" no_body) one_record)
    as (_ & [Hstore _] & Hsel).
  destruct (Hsel SelectStudents Hin) as [Hs Hq].
  split; [exact Hin|]. split; [exact Hs|]. split; [exact Hq|exact Hstore].
Defined.

(** ** The writes on a PostgreSQL store *)

Lemma bind_as_string {A} (input : string -> option A) (s : string) :
  bind_as input (JsString s) =
    match input s with Some a => Some (Some a) | None => None end.
Proof. reflexivity. Qed.

Lemma head_fmap_filter {A B} (f : A -> B) (P : A -> Prop)
    `{forall x, Decision (P x)} (l : list A) :
  length (f <$> filter P l) <> 0%nat ->
  exists a, a ∈ l /\ P a /\ head (f <$> filter P l) = Some (f a).
Proof.
  destruct (filter P l) as [|a k] eqn:Hf; simpl; [done|]. intros _.
  assert (Ha : a ∈ filter P l) by (rewrite Hf; left).
  apply list_elem_of_filter in Ha as [? ?]. eauto.
Qed.

(** An update that matches no row changes no row. *)
Lemma fmap_if_no_hit {A} (P : A -> Prop) `{forall x, Decision (P x)}
    (f : A -> A) (l : list A) :
  filter P l = [] -> (fun a => if decide (P a) then f a else a) <$> l = l.
Proof.
  intros Hn. rewrite <- (list_fmap_id l) at 2. apply list_fmap_ext.
  intros i a Ha. case_decide as Hz; [|done]. exfalso.
  assert (Hin : a ∈ filter P l).
  { apply list_elem_of_filter. split; [done|]. eapply list_elem_of_lookup_2; eauto. }
  rewrite Hn in Hin. by apply not_elem_of_nil in Hin.
Qed.

Lemma update_attendance_frame (st : option string) (z : Z) (l : list Attendance) :
  Forall2 (fun a a' =>
             attendance_id a' = attendance_id a /\
             a_student_id a' = a_student_id a /\
             date a' = date a /\
             (attendance_id a <> z -> a' = a) /\
             (attendance_id a = z -> status a' = st))
    l (update_attendance st z l).
Proof.
  unfold update_attendance. apply Forall2_fmap_r, Forall_Forall2_diag, Forall_forall.
  intros a _. simpl. case_decide; simpl; repeat split; auto; congruence.
Qed.

(** [PUT /attendance/:id] either leaves the store as it was and does not
    answer 200, or rewrites the status of the rows with that id and
    answers 200 with the first of them. *)
Lemma pg_put_attendance (sch : Schema) (req : Request) (t : Tables) :
  let out := pg_serve sch PUT_attendance_id req t in
  let st := prepareValue (prop (body req) "status") in
  (store (snd out) = t /\
   forall resp, response out = Some resp -> status_code resp <> 200) \/
  (exists z a, int_in sch (params_id req) = Some z /\
     a ∈ attendance t /\ attendance_id a = z /\
     store (snd out) = with_attendance t (update_attendance st z (attendance t)) /\
     response out = Some (mkResponse 200 (BRow (Some (RAttendance (set_status st a)))))).
Proof.
  run_handler. rewrite bind_as_string.
  destruct (int_in sch (params_id req)) as [z|] eqn:Hid; simpl.
  2:{ left. split; [done|]. unfold response; simpl. intros ? [= <-]. simpl. lia. }
  destruct (forallb _ _) eqn:Hok; simpl.
  2:{ left. split; [done|]. unfold response; simpl. intros ? [= <-]. simpl. lia. }
  case_decide as Hn; simpl.
  - left. rewrite !length_fmap in Hn. apply nil_length_inv in Hn. split.
    + unfold with_attendance, update_attendance. destruct t as [ss aa n1 n2]; simpl in *.
      f_equal. by apply fmap_if_no_hit.
    + unfold response; simpl. intros ? [= <-]. simpl. lia.
  - right. rewrite <- list_fmap_compose in Hn |- *.
    apply head_fmap_filter in Hn as (a & Ha & Hz & Hhead).
    exists z, a. unfold rows0. simpl. rewrite Hhead. auto.
Qed.

(** C3. [PUT /attendance/:id] never touches the [students] table, and
    leaves every attendance row in place with its [attendance_id],
    [student_id] and [date]; a row with another id is left as it is
    altogether. When the request finds a matching row and is answered 200,
    the answer is that row with only [status] replaced by the bound value,
    and this is the row now stored. *)
Theorem put_attendance_changes_only_status (sch : Schema) (req : Request) (t : Tables) :
  let out := pg_serve sch PUT_attendance_id req t in
  let t' := store (snd out) in
  students t' = students t /\
  Forall2 (fun a a' =>
             attendance_id a' = attendance_id a /\
             a_student_id a' = a_student_id a /\
             date a' = date a /\
             (int_in sch (params_id req) <> Some (attendance_id a) -> a' = a))
    (attendance t) (attendance t') /\
  (forall resp,
     response out = Some resp -> status_code resp = 200 ->
     exists a,
       a ∈ attendance t /\
       int_in sch (params_id req) = Some (attendance_id a) /\
       let a' := mkAttendance (attendance_id a) (a_student_id a) (date a)
                   (prepareValue (prop (body req) "status")) in
       payload resp = BRow (Some (RAttendance a')) /\
       a' ∈ attendance t').
Proof.
  intros out t'. subst t'.
  destruct (pg_put_attendance sch req t) as [[Hst Hresp]|(z & a & Hid & Ha & Hz & Hst & Hresp)];
    fold out in Hst, Hresp; rewrite Hst.
  - split; [done|]. split.
    + apply Forall_Forall2_diag, Forall_forall. auto.
    + intros resp Hr H200. by apply Hresp in Hr.
  - split; [done|]. split.
    + simpl. eapply Forall2_impl; [apply update_attendance_frame|].
      simpl. intros x y (? & ? & ? & Hne & _). repeat split; auto.
      intros Hx. apply Hne. congruence.
    + intros resp Hr H200. rewrite Hresp in Hr. injection Hr as <-.
      exists a. subst z. split; [done|]. split; [done|]. simpl. split; [done|].
      unfold update_attendance. apply list_elem_of_fmap. exists a.
      rewrite decide_True by done. done.
Qed.

Lemma put_attendance_changes_only_status_witness :
  response (pg_serve plain_schema PUT_attendance_id mark_absent one_record)
    = Some (mkResponse 200 (BRow (Some (RAttendance
        (mkAttendance 1 (Some 1) (Some (mkDate 2024 1 1)) (Some "absent")))))) /\
  exists a,
    a ∈ attendance one_record /\
    a_student_id a = Some 1 /\ date a = Some (mkDate 2024 1 1) /\
    mkAttendance (attendance_id a) (a_student_id a) (date a) (Some "absent")
      ∈ attendance (store (snd (pg_serve plain_schema PUT_attendance_id mark_absent one_record))).
Proof.
  split; [reflexivity|].
  destruct (put_attendance_changes_only_status plain_schema mark_absent one_record)
    as (_ & _ & H200).
  destruct (H200 _ eq_refl eq_refl) as (a & Ha & Hid & _ & Hin).
  exists a. split; [exact Ha|].
  apply list_elem_of_singleton in Ha. subst a. simpl. auto.
Defined.

(** A [DELETE /students/:id] answered 200 has removed the rows with that
    id from [students]. *)
Lemma pg_delete_students_200 (sch : Schema) (req : Request) (t : Tables) (resp : Response) :
  response (pg_serve sch DELETE_students_id req t) = Some resp ->
  status_code resp = 200 ->
  exists z l,
    int_in sch (params_id req) = Some z /\
    after_delete sch z (attendance t) = inr l /\
    store (snd (pg_serve sch DELETE_students_id req t))
      = mkTables (filter (fun s => student_id s <> z) (students t)) l
          (students_seq t) (attendance_seq t).
Proof.
  run_handler. rewrite bind_as_string.
  destruct (int_in sch (params_id req)) as [z|] eqn:Hid; simpl.
  2:{ unfold response; simpl. intros [= <-]. simpl. lia. }
  destruct (filter _ (students t)) as [|s hit] eqn:Hhit; simpl.
  { unfold response; simpl. intros [= <-]. simpl. lia. }
  destruct (after_delete sch z (attendance t)) as [e|l] eqn:Had; simpl.
  { unfold response; simpl. intros [= <-]. simpl. lia. }
  intros _ _. exists z, l. auto.
Qed.

(** C4. From any state of the tables and for any path id: if
    [DELETE /students/:id] is answered 200, then [GET /students] on the
    resulting state is answered 200 with an array of student rows none of
    which has that [student_id]. *)
Theorem deleted_student_absent_from_listing (sch : Schema) (req req' : Request)
    (t : Tables) (resp : Response) :
  response (pg_serve sch DELETE_students_id req t) = Some resp ->
  status_code resp = 200 ->
  exists l : list Student,
    response (pg_serve sch GET_students req'
                (store (snd (pg_serve sch DELETE_students_id req t))))
      = Some (mkResponse 200 (BRows (RStudent <$> l))) /\
    forall s, s ∈ l -> int_in sch (params_id req) <> Some (student_id s).
Proof.
  intros Hresp H200.
  destruct (pg_delete_students_200 sch req t resp Hresp H200)
    as (z & la & Hid & _ & ->).
  rewrite pg_get_students. simpl. eexists. split; [reflexivity|].
  intros s Hs. rewrite merge_sort_Permutation in Hs.
  apply list_elem_of_filter in Hs as [Hne _]. congruence.
Qed.

Lemma deleted_student_absent_from_listing_witness :
  response (pg_serve plain_schema DELETE_students_id (mkRequest "2" no_body) two_students)
    = Some (mkResponse 200 (BDeleted "Student deleted successfully" (Some (RStudent bela)))) /\
  exists l : list Student,
    response (pg_serve plain_schema GET_students (mkRequest "" no_body)
                (store (snd (pg_serve plain_schema DELETE_students_id
                               (mkRequest "2" no_body) two_students))))
      = Some (mkResponse 200 (BRows (RStudent <$> l))) /\
    forall s, s ∈ l -> decimal "2" <> Some (student_id s).
Proof.
  split; [reflexivity|].
  exact (deleted_student_absent_from_listing plain_schema (mkRequest "2" no_body)
           (mkRequest "" no_body) two_students _ eq_refl eq_refl).
Defined.

(** [PUT /students/:id] on the store, by what the store makes of the path
    id and of the rewritten rows. *)
Lemma pg_put_students (sch : Schema) (req : Request) (t : Tables) :
  let out := pg_serve sch PUT_students_id req t in
  let n := prepareValue (prop (body req) "name") in
  let r := prepareValue (prop (body req) "roll_number") in
  match int_in sch (params_id req) with
  | None =>
      out = (Normal tt,
             mkWorld t [mkResponse 500 (BError "Failed to update student")]
               [InvalidTextRepresentation] [statement_of PUT_students_id req])
  | Some z =>
      let hit := set_student n r <$> filter (fun s => student_id s = z) (students t) in
      if forallb (student_ok sch) hit then
        match hit with
        | [] =>
            out = (Returned,
                   mkWorld t [mkResponse 404 (BError "Student not found")]
                     [] [statement_of PUT_students_id req])
        | s' :: _ =>
            out = (Normal tt,
                   mkWorld (with_students t (update_students n r z (students t)))
                     [mkResponse 200 (BRow (Some (RStudent s')))]
                     [] [statement_of PUT_students_id req])
        end
      else
        out = (Normal tt,
               mkWorld t [mkResponse 500 (BError "Failed to update student")]
                 [CheckViolation] [statement_of PUT_students_id req])
  end.
Proof.
  run_handler. rewrite bind_as_string.
  destruct (int_in sch (params_id req)) as [z|] eqn:Hid; simpl; [|done].
  destruct (forallb _ _) eqn:Hok; simpl; [|done].
  destruct (filter _ (students t)) as [|s hit] eqn:Hhit; simpl; [|done].
  unfold with_students, update_students. rewrite fmap_if_no_hit by done.
  by destruct t.
Qed.

Lemma filter_nil_not_elem {A} (P : A -> Prop) `{forall x, Decision (P x)} (l : list A) :
  (forall x, x ∈ l -> ~ P x) -> filter P l = [].
Proof.
  intros Hno. destruct (filter P l) as [|a k] eqn:Hf; [done|]. exfalso.
  assert (Ha : a ∈ filter P l) by (rewrite Hf; left).
  apply list_elem_of_filter in Ha as [? ?]. by eapply Hno.
Qed.




(** [POST /attendance] on the store, check by check. *)
Lemma pg_post_attendance (sch : Schema) (req : Request) (t : Tables) :
  let out := pg_serve sch POST_attendance req t in
  let q := statement_of POST_attendance req in
  let failed e t' :=
    exec sch q t = (inl e, t') /\
    attendance t' = attendance t /\
    out = (Normal tt,
           mkWorld t' [mkResponse 500 (BError "Failed to mark attendance")] [e] [q]) in
  match bind_as (int_in sch) (prop (body req) "student_id"),
        bind_as (date_in sch) (prop (body req) "date") with
  | Some sid, Some d =>
      let row := mkAttendance (attendance_seq t) sid d
                   (prepareValue (prop (body req) "status")) in
      let t1 := mkTables (students t) (attendance t) (students_seq t)
                  (attendance_seq t + 1) in
      if attendance_ok sch row then
        if decide (Exists (fun a => attendance_id a = attendance_seq t) (attendance t))
        then failed UniqueViolation t1
        else if decide (fk_holds sid (students t))
        then exec sch q t =
               (inr (returning [RAttendance row]),
                with_attendance t1 (attendance t ++ [row])) /\
             out = (Normal tt,
                    mkWorld (with_attendance t1 (attendance t ++ [row]))
                      [mkResponse 201 (BRow (Some (RAttendance row)))] [] [q])
        else failed ForeignKeyViolation t1
      else failed CheckViolation t1
  | _, _ => failed InvalidTextRepresentation t
  end.
Proof.
  run_handler.
  destruct (bind_as (int_in sch) _) as [sid|]; [|done].
  destruct (bind_as (date_in sch) _) as [d|]; [|done].
  destruct (attendance_ok sch _); simpl; [|done].
  repeat case_decide; simpl; done.
Qed.

(** A bound value is NULL exactly when the parameter was. *)
Lemma bind_as_null {A} (input : string -> option A) (v : JsValue) (x : option A) :
  bind_as input v = Some x -> (prepareValue v = None <-> x = None).
Proof.
  unfold bind_as. destruct (prepareValue v) as [txt|].
  - destruct (input txt); intros [= <-]; split; discriminate.
  - intros [= <-]. done.
Qed.

(** C2, as the code has it. For [POST /attendance]: when the body's
    [student_id] is there, is not null and names no row of [students], the
    insert is rejected, nothing is added to [attendance] and the answer is
    500 with an [{ error: ... }] body; the rejection is the foreign-key
    violation when the [student_id] and the date are read by the store and
    the record is otherwise one it would take, and the refusal of the
    parameter when either is not read. When the body's [student_id] is
    absent or null, the foreign key does not apply: a record the store
    otherwise takes is inserted with a NULL [student_id] and the answer is
    201. When the body's [student_id] names an existing student and the
    insert succeeds, the answer is 201 with the inserted record, which
    carries that [student_id] and is the row added to [attendance]. *)
Theorem post_attendance_requires_existing_student (sch : Schema) (req : Request) (t : Tables) :
  let out := pg_serve sch POST_attendance req t in
  let sid := bind_as (int_in sch) (prop (body req) "student_id") in
  let day := bind_as (date_in sch) (prop (body req) "date") in
  let st := prepareValue (prop (body req) "status") in
  (prepareValue (prop (body req) "student_id") <> None ->
   (forall s, s ∈ students t -> sid <> Some (Some (student_id s))) ->
   exists e t',
     exec sch (statement_of POST_attendance req) t = (inl e, t') /\
     response out = Some (mkResponse 500 (BError "Failed to mark attendance")) /\
     console (snd out) = [e] /\
     attendance (store (snd out)) = attendance t /\
     (forall x d,
        sid = Some x -> day = Some d ->
        attendance_ok sch (mkAttendance (attendance_seq t) x d st) = true ->
        (forall a, a ∈ attendance t -> attendance_id a <> attendance_seq t) ->
        e = ForeignKeyViolation) /\
     (sid = None \/ day = None -> e = InvalidTextRepresentation)) /\
  (prepareValue (prop (body req) "student_id") = None ->
   forall d,
     day = Some d ->
     attendance_ok sch (mkAttendance (attendance_seq t) None d st) = true ->
     (forall a, a ∈ attendance t -> attendance_id a <> attendance_seq t) ->
     response out
       = Some (mkResponse 201
                 (BRow (Some (RAttendance (mkAttendance (attendance_seq t) None d st))))) /\
     attendance (store (snd out))
       = attendance t ++ [mkAttendance (attendance_seq t) None d st]) /\
  (forall s res t',
     s ∈ students t ->
     sid = Some (Some (student_id s)) ->
     exec sch (statement_of POST_attendance req) t = (inr res, t') ->
     exists row,
       response out = Some (mkResponse 201 (BRow (Some (RAttendance row)))) /\
       a_student_id row = Some (student_id s) /\
       attendance (store (snd out)) = attendance t ++ [row]).
Proof.
  intros out sid day st. pose proof (pg_post_attendance sch req t) as H.
  cbv zeta in H. fold out sid day st in H. split; [|split].
  - intros Hnn Hno.
    destruct sid as [x|] eqn:Hsid.
    2:{ destruct H as (Hq & Ha & ->). eexists _, _. split; [exact Hq|].
        repeat split; try done. }
    destruct day as [d|] eqn:Hd.
    2:{ destruct H as (Hq & Ha & ->). eexists _, _. split; [exact Hq|].
        repeat split; try done. }
    assert (Hnofk : ~ fk_holds x (students t)).
    { intros [->|Hex].
      - apply Hnn. by apply (bind_as_null _ _ _ Hsid).
      - apply Exists_exists in Hex as (s & Hs & ->). by eapply Hno. }
    destruct (attendance_ok sch _) eqn:Hok.
    2:{ destruct H as (Hq & Ha & ->). eexists _, _. split; [exact Hq|].
        repeat split; try done.
        - intros ? ? [= <-] [= <-]. congruence.
        - intros [?|?]; done. }
    destruct (decide (Exists _ (attendance t))) as [Hpk|Hpk].
    { destruct H as (Hq & Ha & ->). eexists _, _. split; [exact Hq|].
      repeat split; try done.
      - intros ? ? [= <-] [= <-] _ Hfresh.
        apply Exists_exists in Hpk as (a & Ha' & Hid). by apply Hfresh in Ha'.
      - intros [?|?]; done. }
    destruct (decide (fk_holds x (students t))) as [Hfk|Hfk]; [done|].
    destruct H as (Hq & Ha & ->). eexists _, _. split; [exact Hq|].
    repeat split; try done. intros [?|?]; done.
  - intros Hnull d Hd Hok Hfresh.
    destruct sid as [x|] eqn:Hsid.
    2:{ unfold sid, bind_as in Hsid. rewrite Hnull in Hsid. done. }
    assert (x = None) as -> by (by apply (bind_as_null _ _ _ Hsid)).
    rewrite Hd, Hok in H.
    destruct (decide (Exists _ (attendance t))) as [Hpk|Hpk].
    { apply Exists_exists in Hpk as (a & Ha' & Hid). by apply Hfresh in Ha'. }
    destruct (decide (fk_holds None (students t))) as [Hfk|Hfk].
    + destruct H as (_ & ->). done.
    + exfalso. apply Hfk. by left.
  - intros s res t' Hs Hsid Hq. rewrite Hsid in H.
    destruct day as [d|] eqn:Hd;
      [|destruct H as (Hq' & _); congruence].
    destruct (attendance_ok sch _) eqn:Hok;
      [|destruct H as (Hq' & _); congruence].
    destruct (decide (Exists _ (attendance t))) as [Hpk|Hpk];
      [destruct H as (Hq' & _); congruence|].
    destruct (decide (fk_holds _ (students t))) as [Hfk'|Hfk'].
    + destruct H as (_ & ->). eexists. split; [reflexivity|]. split; reflexivity.
    + destruct H as (Hq' & _); congruence.
Qed.

Lemma post_attendance_requires_existing_student_witness :
  ((prepareValue (prop (body (mark_present 7)) "student_id") <> None /\
    forall s, s ∈ students two_students ->
      bind_as decimal (prop (body (mark_present 7)) "student_id")
        <> Some (Some (student_id s))) /\
   exists e t',
     exec plain_schema (statement_of POST_attendance (mark_present 7)) two_students
       = (inl e, t') /\
     response (pg_serve plain_schema POST_attendance (mark_present 7) two_students)
       = Some (mkResponse 500 (BError "Failed to mark attendance")) /\
     e = ForeignKeyViolation) /\
  (prepareValue (prop (body mark_without_student) "student_id") = None /\
   response (pg_serve plain_schema POST_attendance mark_without_student two_students)
     = Some (mkResponse 201 (BRow (Some (RAttendance
         (mkAttendance 1 None (Some (mkDate 2024 1 1)) (Some "present"))))))) /\
  (amit ∈ students two_students /\
   exists row,
     response (pg_serve plain_schema POST_attendance (mark_present 1) two_students)
       = Some (mkResponse 201 (BRow (Some (RAttendance row)))) /\
     a_student_id row = Some 1).
Proof.
  pose proof (post_attendance_requires_existing_student plain_schema (mark_present 7)
                two_students) as [H7 _].
  pose proof (post_attendance_requires_existing_student plain_schema mark_without_student
                two_students) as (_ & H0 & _).
  pose proof (post_attendance_requires_existing_student plain_schema (mark_present 1)
                two_students) as (_ & _ & H1).
  assert (Hnn : prepareValue (prop (body (mark_present 7)) "student_id") <> None)
    by (vm_compute; discriminate).
  assert (Hno : forall s, s ∈ students two_students ->
            bind_as decimal (prop (body (mark_present 7)) "student_id")
              <> Some (Some (student_id s))).
  { intros s Hs. simpl in Hs.
    apply elem_of_cons in Hs as [->|Hs]; [vm_compute; discriminate|].
    apply list_elem_of_singleton in Hs as ->. vm_compute. discriminate. }
  assert (Hfresh : forall a : Attendance, a ∈ attendance two_students ->
            attendance_id a <> attendance_seq two_students).
  { intros a Ha. simpl in Ha. by apply not_elem_of_nil in Ha. }
  split; [|split].
  - split; [split; [exact Hnn|exact Hno]|].
    destruct (H7 Hnn Hno) as (e & t' & Hq & Hresp & _ & _ & Hfk & _).
    exists e, t'. split; [exact Hq|]. split; [exact Hresp|].
    exact (Hfk _ _ eq_refl eq_refl eq_refl Hfresh).
  - split; [reflexivity|].
    exact (proj1 (H0 eq_refl _ eq_refl eq_refl Hfresh)).
  - assert (Ha : amit ∈ students two_students) by (simpl; right; left).
    split; [exact Ha|].
    destruct (H1 amit _ _ Ha eq_refl eq_refl) as (row & Hresp & Hsid & _).
    exists row. split; [exact Hresp|exact Hsid].
Defined.

(** C2, as stated, fails twice. A body without [student_id] references no
    student, yet the foreign key lets the NULL pass: the record is
    inserted and the answer is 201, not 500. And a body whose
    [student_id] is [abc] references no student and is answered 500, but
    the rejection is the store refusing to read [abc] as an integer, not
    a referential-integrity violation. *)
Lemma post_attendance_without_student_id_is_201 :
  (forall s, s ∈ students two_students ->
     bind_as (int_in plain_schema) (prop (body mark_without_student) "student_id")
       <> Some (Some (student_id s))) /\
  response (pg_serve plain_schema POST_attendance mark_without_student two_students)
    = Some (mkResponse 201 (BRow (Some (RAttendance
        (mkAttendance 1 None (Some (mkDate 2024 1 1)) (Some "present")))))) /\
  (forall s, s ∈ students two_students ->
     bind_as (int_in plain_schema) (prop (body mark_unreadable_student) "student_id")
       <> Some (Some (student_id s))) /\
  console (snd (pg_serve plain_schema POST_attendance mark_unreadable_student two_students))
    = [InvalidTextRepresentation] /\
  ~ (forall (sch : Schema) (req : Request) (t : Tables),
       (forall s, s ∈ students t ->
          bind_as (int_in sch) (prop (body req) "student_id")
            <> Some (Some (student_id s))) ->
       console (snd (pg_serve sch POST_attendance req t)) = [ForeignKeyViolation] /\
       exists b, response (pg_serve sch POST_attendance req t) = Some (mkResponse 500 b)).
Proof.
  assert (Hno : forall s, s ∈ students two_students ->
     bind_as (int_in plain_schema) (prop (body mark_without_student) "student_id")
       <> Some (Some (student_id s))) by (intros s _; discriminate).
  split; [exact Hno|]. split; [reflexivity|].
  split; [intros s _; discriminate|]. split; [reflexivity|].
  intros Hclaim.
  destruct (Hclaim plain_schema mark_without_student two_students Hno) as (_ & b & Hb).
  vm_compute in Hb. discriminate Hb.
Qed.

(** C10. [PUT /students/:id] never looks at whether [name] or
    [roll_number] is there. For any body and any pool it hands over the
    one statement that sets both columns, with a field the body omits
    passed as [undefined], which [pg] binds as NULL; and it answers 200,
    404 or 500, never 400. On the store, when the path id is an integer
    and the rewritten rows are rows the store permits, every row with that
    id afterwards holds NULL in each column whose field the body omitted. *)
Theorem put_students_binds_missing_fields_as_null (req : Request) :
  (forall DB (query : Statement -> DB -> (DbError + QueryResult) * DB) (s : DB),
     let out := serve query PUT_students_id req s in
     issued (snd out)
       = [UpdateStudent (prop (body req) "name") (prop (body req) "roll_number")
            (JsString (params_id req))] /\
     exists resp,
       response out = Some resp /\
       status_code resp <> 400 /\
       (status_code resp = 200 \/ status_code resp = 404 \/ status_code resp = 500)) /\
  (forall k, body req !! k = None ->
     prop (body req) k = JsUndefined /\ prepareValue (prop (body req) k) = None) /\
  (forall (sch : Schema) (t : Tables) (z : Z) (s' : Student),
     int_in sch (params_id req) = Some z ->
     forallb (student_ok sch)
       (set_student (prepareValue (prop (body req) "name"))
                    (prepareValue (prop (body req) "roll_number"))
          <$> filter (fun s => student_id s = z) (students t)) = true ->
     s' ∈ students (store (snd (pg_serve sch PUT_students_id req t))) ->
     student_id s' = z ->
     (body req !! "name" = None -> name s' = None) /\
     (body req !! "roll_number" = None -> roll_number s' = None)).
Proof.
  assert (Hprop : forall k, body req !! k = None ->
            prop (body req) k = JsUndefined /\ prepareValue (prop (body req) k) = None).
  { intros k Hk. unfold prop. rewrite Hk. done. }
  split; [|split; [exact Hprop|]].
  - intros DB query s. run_handler.
    destruct (query _ s) as [[e|res] s1]; simpl.
    + split; [done|]. eexists. split; [reflexivity|]. simpl. lia.
    + case_decide; simpl; (split; [done|]); eexists; (split; [reflexivity|]);
        simpl; lia.
  - intros sch t z s' Hid Hok Hs' Hz.
    pose proof (pg_put_students sch req t) as H. cbv zeta in H.
    rewrite Hid, Hok in H.
    set (out := pg_serve sch PUT_students_id req t) in *.
    assert (Hrow : name s' = prepareValue (prop (body req) "name") /\
                   roll_number s' = prepareValue (prop (body req) "roll_number")).
    { destruct (filter _ (students t)) as [|s0 hit] eqn:Hhit; simpl in H;
        rewrite H in Hs'; simpl in Hs'.
      - exfalso.
        assert (Hin : s' ∈ filter (fun s => student_id s = z) (students t))
          by (apply list_elem_of_filter; done).
        rewrite Hhit in Hin. by apply not_elem_of_nil in Hin.
      - unfold update_students in Hs'. apply list_elem_of_fmap in Hs' as (s & -> & Hs).
        case_decide as Hsz; [done|]. done. }
    destruct Hrow as [-> ->].
    split; intros Hk; by apply Hprop.
Qed.

Lemma put_students_binds_missing_fields_as_null_witness :
  let req := mkRequest "2" {[ "roll_number"%string := JsString "R9" ]} in
  body req !! "name"%string = None /\
  issued (snd (pg_serve plain_schema PUT_students_id req two_students))
    = [UpdateStudent JsUndefined (JsString "R9") (JsString "2")] /\
  students (store (snd (pg_serve plain_schema PUT_students_id req two_students)))
    = [mkStudent 2 None (Some "R9"); amit] /\
  name (mkStudent 2 None (Some "R9")) = None.
Proof.
  intros req.
  destruct (put_students_binds_missing_fields_as_null req) as (Hany & _ & Hpg).
  assert (Hk : body req !! "name"%string = None) by reflexivity.
  split; [exact Hk|].
  split; [exact (proj1 (Hany Tables (exec plain_schema) two_students))|].
  split; [reflexivity|].
  refine (proj1 (Hpg plain_schema two_students 2 (mkStudent 2 None (Some "R9"))
                   eq_refl eq_refl _ eq_refl) Hk).
  vm_compute. left.
Defined.

(** * Further properties of the handlers *)

(** ** Any pool *)

Section AnyPoolMore.
Context {DB : Type} (query : Statement -> DB -> (DbError + QueryResult) * DB).

(** What a handler leaves behind, by the outcome of its one query. *)
Lemma app_outcome (r : Route) (req : Request) (w : World DB) :
  exists c resp,
    app query r req w =
      (c, mkWorld (snd (query (statement_of r req) (store w)))
            (sent w ++ [resp])
            (console w ++ match fst (query (statement_of r req) (store w)) with
                          | inl e => [e]
                          | inr _ => []
                          end)
            (issued w ++ [statement_of r req])) /\
    match fst (query (statement_of r req) (store w)) with
    | inl _ => resp = mkResponse 500 (BError (catch_message r))
    | inr res =>
        if checks_row_count r && bool_decide (rowCount res = 0%nat)
        then status_code resp = 404 /\ is_error_body (payload resp) = true
        else status_code resp = (if is_post r then 201 else 200) /\
             is_error_body (payload resp) = false
    end.
Proof.
  destruct (query (statement_of r req) (store w)) as [[e|res] s'] eqn:Hq; simpl.
  - rewrite (app_rejected query r req w e s' Hq). eauto.
  - rewrite app_nil_r.
    destruct r; run_handler; simpl in Hq; rewrite Hq; simpl;
      try case_bool_decide; try case_decide; simpl; try done;
      eexists _, _; (split; [reflexivity|]); simpl; done.
Qed.

End AnyPoolMore.

(** X1. For any pool, each of the eight routes hands the pool exactly one
    statement per request, fixed by the route and the request alone,
    whether the query is then fulfilled or rejected. [GET /] hands it
    none: it answers 200 with its text and leaves store and log alone, so
    it answers the same when the store cannot be reached. *)
Theorem every_endpoint_but_root_queries_once {DB}
    (query : Statement -> DB -> (DbError + QueryResult) * DB)
    (ep : Endpoint) (req : Request) (w : World DB) :
  issued (snd (handle query ep req w))
    = issued w ++ match ep with
                  | Root => []
                  | Api r => [statement_of r req]
                  end /\
  (ep = Root ->
   snd (handle query ep req w)
     = mkWorld (store w)
         (sent w ++ [mkResponse 200 (BText "Attendance System Backend is running!")])
         (console w) (issued w)).
Proof.
  destruct ep as [|r]; simpl.
  - rewrite app_nil_r. split; [reflexivity|]. intros _. reflexivity.
  - destruct (app_outcome query r req w) as (c & resp & -> & _). simpl.
    split; [reflexivity|]. intros [=].
Qed.

(** X2. For any pool and route, [console.error] is called exactly when the
    query is rejected, once and with the rejection itself; a fulfilled
    query, matched rows or not, logs nothing. The handler leaves the store
    as the one query left it. *)
Theorem console_error_only_on_rejection {DB}
    (query : Statement -> DB -> (DbError + QueryResult) * DB)
    (r : Route) (req : Request) (w : World DB) :
  console (snd (app query r req w))
    = console w ++ match fst (query (statement_of r req) (store w)) with
                   | inl e => [e]
                   | inr _ => []
                   end /\
  store (snd (app query r req w)) = snd (query (statement_of r req) (store w)).
Proof.
  destruct (app_outcome query r req w) as (c & resp & -> & _). simpl. done.
Qed.

(** X3. For any pool and route, the one response has status 200, 201, 404
    or 500; its body has the shape [{ error: ... }] exactly when the
    status is 404 or 500; 201 is sent exactly by the two POST routes on a
    fulfilled query; and 404 is only ever sent by the four routes with a
    path id. *)
Theorem error_body_iff_error_status {DB}
    (query : Statement -> DB -> (DbError + QueryResult) * DB)
    (r : Route) (req : Request) (w : World DB) :
  exists resp,
    sent (snd (app query r req w)) = sent w ++ [resp] /\
    (is_error_body (payload resp) = true <->
       status_code resp = 404 \/ status_code resp = 500) /\
    (status_code resp = 201 <->
       is_post r = true /\
       exists res, fst (query (statement_of r req) (store w)) = inr res) /\
    (status_code resp = 404 -> checks_row_count r = true) /\
    (status_code resp = 200 \/ status_code resp = 201 \/
     status_code resp = 404 \/ status_code resp = 500).
Proof.
  destruct (app_outcome query r req w) as (c & resp & -> & H). simpl.
  exists resp. split; [reflexivity|].
  destruct (fst (query (statement_of r req) (store w))) as [e|res].
  - subst resp. simpl. repeat split; auto; try lia; try (intros [? ?]; lia).
    + intros [_ [res [=]]].
  - destruct (checks_row_count r) eqn:Hr; simpl in H.
    + case_bool_decide.
      * destruct H as [-> ->]. repeat split; auto; try lia.
        destruct r; simpl in *; try done; intros [? _]; done.
      * destruct H as [-> ->]. destruct r; simpl in *; try done;
          repeat split; auto; try lia; try (intros [? ?]; lia); try (intros [? _]; done).
    + destruct H as [-> ->]. destruct r; simpl in *; try done;
        repeat split; auto; try lia; try (intros [? ?]; lia); eauto.
Qed.

(** ** The store, route by route *)

Lemma filter_ne_no_hit {A} (f : A -> Z) (z : Z) (l : list A) :
  filter (fun a => f a = z) l = [] -> filter (fun a => f a <> z) l = l.
Proof.
  induction l as [|a l IH]; [done|].
  rewrite !filter_cons. case_decide as Hz; [done|]. intros Hn.
  rewrite decide_True by done. f_equal. auto.
Qed.

Lemma filter_eq_after_ne {A} (f : A -> Z) (z : Z) (l : list A) :
  filter (fun a => f a = z) (filter (fun a => f a <> z) l) = [].
Proof.
  apply filter_nil_not_elem. intros a Ha. apply list_elem_of_filter in Ha as [? _]. done.
Qed.

Lemma joined_without (t : Tables) (z : Z) (v : AttendanceView) :
  v ∈ joined (with_attendance t (filter (fun a => attendance_id a <> z) (attendance t)))
  <-> v ∈ joined t /\ v_attendance_id v <> z.
Proof.
  rewrite !elem_of_joined. simpl. split.
  - intros (a & s & Ha & Hs & Heq & ->). apply list_elem_of_filter in Ha as [Hz Ha].
    split; [eauto 10|done].
  - intros [(a & s & Ha & Hs & Heq & ->) Hz]. simpl in Hz.
    exists a, s. split; [apply list_elem_of_filter; done|done].
Qed.

Lemma update_students_frame (n r : option string) (z : Z) (l : list Student) :
  Forall2 (fun s s' =>
             student_id s' = student_id s /\
             (student_id s <> z -> s' = s) /\
             (student_id s = z -> name s' = n /\ roll_number s' = r))
    l (update_students n r z l).
Proof.
  unfold update_students. apply Forall2_fmap_r, Forall_Forall2_diag, Forall_forall.
  intros s _. simpl. case_decide; simpl; repeat split; auto; congruence.
Qed.

Lemma filter_update_students (n r : option string) (z : Z) (l : list Student) :
  filter (fun s => student_id s = z) (update_students n r z l)
    = set_student n r <$> filter (fun s => student_id s = z) l.
Proof.
  unfold update_students. induction l as [|s l IH]; [done|].
  rewrite fmap_cons, !filter_cons.
  destruct (decide (student_id s = z)) as [Hz|Hz].
  - rewrite decide_True by done. rewrite fmap_cons. by f_equal.
  - rewrite decide_False by done. done.
Qed.

Lemma update_students_twice (n r : option string) (z : Z) (l : list Student) :
  update_students n r z (update_students n r z l) = update_students n r z l.
Proof.
  unfold update_students. rewrite <- list_fmap_compose. apply list_fmap_ext.
  intros i s _. unfold compose.
  destruct (decide (student_id s = z)) as [Hz|Hz]; simpl.
  - rewrite decide_True by done. done.
  - rewrite decide_False by done. done.
Qed.

Lemma set_student_twice (n r : option string) (l : list Student) :
  set_student n r <$> (set_student n r <$> l) = set_student n r <$> l.
Proof. rewrite <- list_fmap_compose. apply list_fmap_ext. done. Qed.

Lemma filter_update_attendance (st : option string) (z : Z) (l : list Attendance) :
  filter (fun a => attendance_id a = z) (update_attendance st z l)
    = set_status st <$> filter (fun a => attendance_id a = z) l.
Proof.
  unfold update_attendance. induction l as [|a l IH]; [done|].
  rewrite fmap_cons, !filter_cons.
  destruct (decide (attendance_id a = z)) as [Hz|Hz].
  - rewrite decide_True by done. rewrite fmap_cons. by f_equal.
  - rewrite decide_False by done. done.
Qed.

Lemma update_attendance_twice (st : option string) (z : Z) (l : list Attendance) :
  update_attendance st z (update_attendance st z l) = update_attendance st z l.
Proof.
  unfold update_attendance. rewrite <- list_fmap_compose. apply list_fmap_ext.
  intros i a _. unfold compose.
  destruct (decide (attendance_id a = z)) as [Hz|Hz]; simpl.
  - rewrite decide_True by done. done.
  - rewrite decide_False by done. done.
Qed.

Lemma set_status_twice (st : option string) (l : list Attendance) :
  set_status st <$> (set_status st <$> l) = set_status st <$> l.
Proof. rewrite <- list_fmap_compose. apply list_fmap_ext. done. Qed.

(** [POST /students] on the store. *)
Lemma pg_post_students (sch : Schema) (req : Request) (t : Tables) :
  let out := pg_serve sch POST_students req t in
  let q := statement_of POST_students req in
  let row := mkStudent (students_seq t) (prepareValue (prop (body req) "name"))
               (prepareValue (prop (body req) "roll_number")) in
  let t1 := mkTables (students t) (attendance t) (students_seq t + 1)
              (attendance_seq t) in
  let failed e :=
    out = (Normal tt,
           mkWorld t1 [mkResponse 500 (BError "Failed to add student")] [e] [q]) in
  if student_ok sch row then
    if decide (Exists (fun s => student_id s = students_seq t) (students t))
    then failed UniqueViolation
    else out = (Normal tt,
                mkWorld (with_students t1 (students t ++ [row]))
                  [mkResponse 201 (BRow (Some (RStudent row)))] [] [q])
  else failed CheckViolation.
Proof.
  run_handler. destruct (student_ok sch _); simpl; [|done].
  case_decide; simpl; done.
Qed.

(** [DELETE /attendance/:id] on the store. *)
Lemma pg_delete_attendance (sch : Schema) (req : Request) (t : Tables) :
  let out := pg_serve sch DELETE_attendance_id req t in
  let q := statement_of DELETE_attendance_id req in
  match int_in sch (params_id req) with
  | None =>
      out = (Normal tt,
             mkWorld t [mkResponse 500 (BError "Failed to delete attendance")]
               [InvalidTextRepresentation] [q])
  | Some z =>
      match filter (fun a => attendance_id a = z) (attendance t) with
      | [] =>
          out = (Returned,
                 mkWorld t [mkResponse 404 (BError "Attendance record not found")] [] [q])
      | a :: _ =>
          out = (Normal tt,
                 mkWorld (with_attendance t
                            (filter (fun a => attendance_id a <> z) (attendance t)))
                   [mkResponse 200
                      (BDeleted "Attendance deleted successfully" (Some (RAttendance a)))]
                   [] [q])
      end
  end.
Proof.
  run_handler. rewrite bind_as_string.
  destruct (int_in sch (params_id req)) as [z|]; simpl; [|done].
  destruct (filter _ (attendance t)) as [|a hit] eqn:Hhit; simpl; [|done].
  unfold with_attendance. rewrite filter_ne_no_hit by done. by destruct t.
Qed.

(** [DELETE /students/:id] on the store. *)
Lemma pg_delete_students (sch : Schema) (req : Request) (t : Tables) :
  let out := pg_serve sch DELETE_students_id req t in
  let q := statement_of DELETE_students_id req in
  match int_in sch (params_id req) with
  | None =>
      out = (Normal tt,
             mkWorld t [mkResponse 500 (BError "Failed to delete student")]
               [InvalidTextRepresentation] [q])
  | Some z =>
      match filter (fun s => student_id s = z) (students t) with
      | [] =>
          out = (Returned,
                 mkWorld t [mkResponse 404 (BError "Student not found")] [] [q])
      | s :: _ =>
          match after_delete sch z (attendance t) with
          | inr l =>
              out = (Normal tt,
                     mkWorld (mkTables (filter (fun s => student_id s <> z) (students t))
                                l (students_seq t) (attendance_seq t))
                       [mkResponse 200
                          (BDeleted "Student deleted successfully" (Some (RStudent s)))]
                       [] [q])
          | inl e =>
              out = (Normal tt,
                     mkWorld t [mkResponse 500 (BError "Failed to delete student")]
                       [e] [q])
          end
      end
  end.
Proof.
  run_handler. rewrite bind_as_string.
  destruct (int_in sch (params_id req)) as [z|]; simpl; [|done].
  destruct (filter _ (students t)) as [|s hit] eqn:Hhit; simpl; [done|].
  destruct (after_delete sch z (attendance t)); simpl; done.
Qed.

(** [PUT /attendance/:id] on the store, case by case. *)
Lemma pg_put_attendance_cases (sch : Schema) (req : Request) (t : Tables) :
  let out := pg_serve sch PUT_attendance_id req t in
  let q := statement_of PUT_attendance_id req in
  let st := prepareValue (prop (body req) "status") in
  match int_in sch (params_id req) with
  | None =>
      out = (Normal tt,
             mkWorld t [mkResponse 500 (BError "Failed to update attendance")]
               [InvalidTextRepresentation] [q])
  | Some z =>
      let hit := set_status st <$> filter (fun a => attendance_id a = z) (attendance t) in
      if forallb (attendance_ok sch) hit then
        match hit with
        | [] =>
            out = (Returned,
                   mkWorld t [mkResponse 404 (BError "Attendance record not found")] [] [q])
        | a' :: _ =>
            out = (Normal tt,
                   mkWorld (with_attendance t (update_attendance st z (attendance t)))
                     [mkResponse 200 (BRow (Some (RAttendance a')))] [] [q])
        end
      else
        out = (Normal tt,
               mkWorld t [mkResponse 500 (BError "Failed to update attendance")]
                 [CheckViolation] [q])
  end.
Proof.
  run_handler. rewrite bind_as_string.
  destruct (int_in sch (params_id req)) as [z|] eqn:Hid; simpl; [|done].
  destruct (forallb _ _) eqn:Hok; simpl; [|done].
  destruct (filter _ (attendance t)) as [|s hit] eqn:Hhit; simpl; [|done].
  unfold with_attendance, update_attendance. rewrite fmap_if_no_hit by done.
  by destruct t.
Qed.

(** Reading the one response off an outcome that is known. *)
Ltac read_response H Hresp :=
  rewrite H in Hresp; unfold response in Hresp; simpl in Hresp;
  injection Hresp as <-.

(** ** Creating *)

(** X4. [POST /students] does not look at its body. Whenever the store
    takes the row and the id drawn from the sequence is unused, the answer
    is 201 with the new row, the row is appended to [students], and the
    stored row with the new id holds NULL in every column whose field the
    body omitted. Whenever the store refuses the row or the id is taken,
    the answer is 500 and [students] is left as it was. *)
Theorem post_students_accepts_what_the_store_accepts (sch : Schema) (req : Request)
    (t : Tables) :
  let out := pg_serve sch POST_students req t in
  let row := mkStudent (students_seq t) (prepareValue (prop (body req) "name"))
               (prepareValue (prop (body req) "roll_number")) in
  (student_ok sch row = true ->
   (forall s, s ∈ students t -> student_id s <> students_seq t) ->
   response out = Some (mkResponse 201 (BRow (Some (RStudent row)))) /\
   students (store (snd out)) = students t ++ [row] /\
   attendance (store (snd out)) = attendance t /\
   (exists s, s ∈ students (store (snd out)) /\ student_id s = students_seq t) /\
   (forall s,
      s ∈ students (store (snd out)) -> student_id s = students_seq t ->
      (body req !! "name"%string = None -> name s = None) /\
      (body req !! "roll_number"%string = None -> roll_number s = None))) /\
  (student_ok sch row = false \/
   (exists s, s ∈ students t /\ student_id s = students_seq t) ->
   response out = Some (mkResponse 500 (BError "Failed to add student")) /\
   students (store (snd out)) = students t /\
   attendance (store (snd out)) = attendance t).
Proof.
  intros out row. pose proof (pg_post_students sch req t) as H. cbv zeta in H.
  fold row out in H. split.
  - intros Hok Hfresh. rewrite Hok in H.
    destruct (decide (Exists _ (students t))) as [Hpk|Hpk].
    { apply Exists_exists in Hpk as (s & Hs & Hid). by apply Hfresh in Hs. }
    rewrite H. cbn [snd store students attendance with_students].
    split; [done|]. split; [done|]. split; [done|]. split.
    + exists row. split; [apply elem_of_app; right; left|done].
    + intros s Hs Hid. apply elem_of_app in Hs as [Hs|Hs].
      { by apply Hfresh in Hs. }
      apply list_elem_of_singleton in Hs as ->. simpl. unfold prop.
      split; intros ->; done.
  - intros Hbad.
    assert (Hfail : forall e,
              out = (Normal tt,
                     mkWorld (mkTables (students t) (attendance t) (students_seq t + 1)
                                (attendance_seq t))
                       [mkResponse 500 (BError "Failed to add student")] [e]
                       [statement_of POST_students req]) ->
              response out = Some (mkResponse 500 (BError "Failed to add student")) /\
              students (store (snd out)) = students t /\
              attendance (store (snd out)) = attendance t)
      by (intros e ->; done).
    destruct (student_ok sch row); [|by eapply Hfail].
    destruct Hbad as [?|(s & Hs & Hid)]; [done|].
    destruct (decide (Exists _ (students t))) as [Hpk|Hpk]; [by eapply Hfail|].
    exfalso. apply Hpk. apply Exists_exists. eauto.
Qed.

Lemma post_students_accepts_what_the_store_accepts_witness :
  student_ok plain_schema (mkStudent 3 None None) = true /\
  (forall s, s ∈ students two_students -> student_id s <> 3) /\
  response (pg_serve plain_schema POST_students (by_id "") two_students)
    = Some (mkResponse 201 (BRow (Some (RStudent (mkStudent 3 None None))))) /\
  students (store (snd (pg_serve plain_schema POST_students (by_id "") two_students)))
    = [bela; amit; mkStudent 3 None None].
Proof.
  assert (Hfresh : forall s, s ∈ students two_students -> student_id s <> 3).
  { intros s Hs. simpl in Hs.
    apply elem_of_cons in Hs as [->|Hs]; [simpl; lia|].
    apply list_elem_of_singleton in Hs as ->. simpl. lia. }
  split; [reflexivity|]. split; [exact Hfresh|].
  destruct (proj1 (post_students_accepts_what_the_store_accepts
                     plain_schema (by_id "") two_students) eq_refl Hfresh)
    as (Hresp & Hst & _).
  split; [exact Hresp|exact Hst].
Defined.

(** X5. When [POST /students] is answered 201, the body is the inserted
    row: it carries the bound [name] and [roll_number], its [student_id]
    is one no stored student had, the row is appended to [students], and
    [attendance] is untouched. *)
Theorem post_students_201_inserts_fresh_row (sch : Schema) (req : Request)
    (t : Tables) (resp : Response) :
  response (pg_serve sch POST_students req t) = Some resp ->
  status_code resp = 201 ->
  exists row,
    payload resp = BRow (Some (RStudent row)) /\
    name row = prepareValue (prop (body req) "name") /\
    roll_number row = prepareValue (prop (body req) "roll_number") /\
    (forall s, s ∈ students t -> student_id s <> student_id row) /\
    students (store (snd (pg_serve sch POST_students req t))) = students t ++ [row] /\
    attendance (store (snd (pg_serve sch POST_students req t))) = attendance t.
Proof.
  intros Hresp Hst. pose proof (pg_post_students sch req t) as H. cbv zeta in H.
  set (out := pg_serve sch POST_students req t) in *.
  destruct (student_ok sch _); [|read_response H Hresp; simpl in Hst; lia].
  destruct (decide (Exists _ (students t))) as [Hpk|Hpk];
    [read_response H Hresp; simpl in Hst; lia|].
  rewrite H. read_response H Hresp. simpl. eexists. split; [reflexivity|]. simpl.
  repeat split; try done.
  intros s Hs Hid. apply Hpk. apply Exists_exists. eauto.
Qed.

Lemma post_students_201_inserts_fresh_row_witness :
  response (pg_serve plain_schema POST_students new_student two_students)
    = Some (mkResponse 201 (BRow (Some (RStudent chen)))) /\
  exists row,
    BRow (Some (RStudent chen)) = BRow (Some (RStudent row)) /\
    (forall s, s ∈ students two_students -> student_id s <> student_id row) /\
    students (store (snd (pg_serve plain_schema POST_students new_student two_students)))
      = students two_students ++ [row].
Proof.
  split; [reflexivity|].
  destruct (post_students_201_inserts_fresh_row plain_schema new_student two_students
              _ eq_refl eq_refl) as (row & Hp & _ & _ & Hfresh & Hst & _).
  exists row. split; [exact Hp|]. split; [exact Hfresh|exact Hst].
Defined.

(** X6. After a [POST /students] answered 201, [GET /students] lists the
    created row together with every student that was there before, and
    nothing else. *)
Theorem created_student_is_listed (sch : Schema) (req req' : Request)
    (t : Tables) (resp : Response) :
  response (pg_serve sch POST_students req t) = Some resp ->
  status_code resp = 201 ->
  exists row l,
    payload resp = BRow (Some (RStudent row)) /\
    response (pg_serve sch GET_students req'
                (store (snd (pg_serve sch POST_students req t))))
      = Some (mkResponse 200 (BRows (RStudent <$> l))) /\
    l ≡ₚ row :: students t.
Proof.
  intros Hresp Hst. pose proof (pg_post_students sch req t) as H. cbv zeta in H.
  set (out := pg_serve sch POST_students req t) in *.
  destruct (student_ok sch _); [|read_response H Hresp; simpl in Hst; lia].
  destruct (decide (Exists _ (students t))) as [Hpk|Hpk];
    [read_response H Hresp; simpl in Hst; lia|].
  rewrite H. read_response H Hresp. rewrite pg_get_students. simpl.
  eexists _, _. split; [reflexivity|]. split; [reflexivity|].
  rewrite merge_sort_Permutation. by rewrite Permutation_app_comm.
Qed.

Lemma created_student_is_listed_witness :
  response (pg_serve plain_schema POST_students new_student two_students)
    = Some (mkResponse 201 (BRow (Some (RStudent chen)))) /\
  exists row l,
    BRow (Some (RStudent chen)) = BRow (Some (RStudent row)) /\
    response (pg_serve plain_schema GET_students (by_id "")
                (store (snd (pg_serve plain_schema POST_students new_student two_students))))
      = Some (mkResponse 200 (BRows (RStudent <$> l))) /\
    l ≡ₚ row :: students two_students.
Proof.
  split; [reflexivity|].
  exact (created_student_is_listed plain_schema new_student (by_id "") two_students
           _ eq_refl eq_refl).
Defined.

(** X7. A student created by [POST /students] can be taken out again: a
    [DELETE /students/:id] with the created row's id that is answered 200
    returns that very row as [deleted] and leaves [students] as it was
    before the creation. *)
Theorem created_student_can_be_deleted (sch : Schema) (req req' : Request)
    (t : Tables) (resp : Response) :
  response (pg_serve sch POST_students req t) = Some resp ->
  status_code resp = 201 ->
  exists row,
    payload resp = BRow (Some (RStudent row)) /\
    forall resp',
      int_in sch (params_id req') = Some (student_id row) ->
      let t1 := store (snd (pg_serve sch POST_students req t)) in
      response (pg_serve sch DELETE_students_id req' t1) = Some resp' ->
      status_code resp' = 200 ->
      payload resp' = BDeleted "Student deleted successfully" (Some (RStudent row)) /\
      students (store (snd (pg_serve sch DELETE_students_id req' t1))) = students t.
Proof.
  intros Hresp Hst. pose proof (pg_post_students sch req t) as H. cbv zeta in H.
  set (out := pg_serve sch POST_students req t) in *.
  destruct (student_ok sch _); [|read_response H Hresp; simpl in Hst; lia].
  destruct (decide (Exists _ (students t))) as [Hpk|Hpk];
    [read_response H Hresp; simpl in Hst; lia|].
  rewrite H. read_response H Hresp.
  eexists. split; [reflexivity|]. cbn [snd store student_id]. intros resp' Hid Hresp' Hst'.
  match type of Hresp' with context [pg_serve sch DELETE_students_id req' ?t1] =>
    pose proof (pg_delete_students sch req' t1) as H2;
    set (out2 := pg_serve sch DELETE_students_id req' t1) in * end.
  cbv zeta in H2. rewrite Hid in H2. cbn [students attendance with_students] in H2.
  assert (Hnone : filter (fun s => student_id s = students_seq t) (students t) = []).
  { apply filter_nil_not_elem. intros a Ha Hz. apply Hpk. apply Exists_exists. eauto. }
  rewrite !filter_app, Hnone, (filter_ne_no_hit _ _ _ Hnone) in H2.
  rewrite !filter_cons, filter_nil in H2. cbn [student_id] in H2.
  rewrite decide_True, decide_False in H2 by (try done; intros Hne; by apply Hne).
  simpl in H2. rewrite app_nil_r in H2.
  destruct (after_delete sch _ _) as [e|l].
  - read_response H2 Hresp'. simpl in Hst'. lia.
  - rewrite H2. read_response H2 Hresp'. done.
Qed.

Lemma created_student_can_be_deleted_witness :
  response (pg_serve plain_schema POST_students new_student two_students)
    = Some (mkResponse 201 (BRow (Some (RStudent chen)))) /\
  decimal "3" = Some (student_id chen) /\
  students (store (snd (pg_serve plain_schema DELETE_students_id (by_id "3")
     (store (snd (pg_serve plain_schema POST_students new_student two_students))))))
    = students two_students.
Proof.
  split; [reflexivity|]. split; [reflexivity|].
  destruct (created_student_can_be_deleted plain_schema new_student (by_id "3")
              two_students _ eq_refl eq_refl) as (row & Hrow & Hdel).
  injection Hrow as <-.
  exact (proj2 (Hdel _ eq_refl eq_refl eq_refl)).
Defined.

(** X8. After a [POST /attendance] answered 201, the inserted record
    carries the bound status and is stored. If the body's [student_id] was
    there and not null, the record carries the id of a stored student and
    [GET /attendance] lists it with that student's name and roll number.
    If it was absent or null, the record is stored with a NULL
    [student_id] and [GET /attendance] lists no row for it. *)
Theorem marked_attendance_is_listed (sch : Schema) (req req' : Request)
    (t : Tables) (resp : Response) :
  response (pg_serve sch POST_attendance req t) = Some resp ->
  status_code resp = 201 ->
  let t1 := store (snd (pg_serve sch POST_attendance req t)) in
  exists a l,
    payload resp = BRow (Some (RAttendance a)) /\
    status a = prepareValue (prop (body req) "status") /\
    attendance t1 = attendance t ++ [a] /\
    response (pg_serve sch GET_attendance req' t1)
      = Some (mkResponse 200 (BRows (RView <$> l))) /\
    (prepareValue (prop (body req) "student_id") <> None ->
     exists s,
       s ∈ students t /\
       a_student_id a = Some (student_id s) /\
       mkView (attendance_id a) (name s) (roll_number s) (date a) (status a) ∈ l) /\
    (prepareValue (prop (body req) "student_id") = None ->
     a_student_id a = None /\
     forall v, v ∈ l -> v_attendance_id v <> attendance_id a).
Proof.
  intros Hresp Hst t1. subst t1.
  pose proof (pg_post_attendance sch req t) as H. cbv zeta in H.
  set (out := pg_serve sch POST_attendance req t) in *.
  destruct (bind_as (int_in sch) _) as [sid|] eqn:Hsid;
    [|destruct H as (_ & _ & H); read_response H Hresp; simpl in Hst; lia].
  destruct (bind_as (date_in sch) _) as [d|];
    [|destruct H as (_ & _ & H); read_response H Hresp; simpl in Hst; lia].
  destruct (attendance_ok sch _);
    [|destruct H as (_ & _ & H); read_response H Hresp; simpl in Hst; lia].
  destruct (decide (Exists _ (attendance t))) as [Hpk|Hpk];
    [destruct H as (_ & _ & H); read_response H Hresp; simpl in Hst; lia|].
  destruct (decide (fk_holds _ (students t))) as [Hfk|Hfk];
    [|destruct H as (_ & _ & H); read_response H Hresp; simpl in Hst; lia].
  destruct H as (_ & H). rewrite H. read_response H Hresp.
  rewrite pg_get_attendance. cbn [snd store].
  eexists _, _. split; [reflexivity|]. cbn [payload status a_student_id attendance_id date].
  split; [reflexivity|]. split; [reflexivity|]. split; [reflexivity|]. split.
  - intros Hnn. destruct Hfk as [->|Hex].
    { exfalso. apply Hnn. by apply (bind_as_null _ _ _ Hsid). }
    apply Exists_exists in Hex as (s & Hs & ->).
    exists s. split; [exact Hs|]. split; [reflexivity|].
    rewrite merge_sort_Permutation. apply elem_of_joined. simpl.
    eexists _, s. split; [apply elem_of_app; right; left|].
    split; [exact Hs|]. split; reflexivity.
  - intros Hnull.
    assert (sid = None) as -> by (by apply (bind_as_null _ _ _ Hsid)).
    split; [reflexivity|]. intros v Hv Hid.
    rewrite merge_sort_Permutation in Hv.
    apply elem_of_joined in Hv as (a & s & Ha & _ & Href & ->). simpl in Ha, Hid.
    apply elem_of_app in Ha as [Ha|Ha].
    + apply Hpk. apply Exists_exists. eauto.
    + apply list_elem_of_singleton in Ha as ->. discriminate Href.
Qed.

Lemma marked_attendance_is_listed_witness :
  (response (pg_serve plain_schema POST_attendance (mark_present 1) two_students)
     = Some (mkResponse 201 (BRow (Some (RAttendance
         (mkAttendance 1 (Some 1) (Some (mkDate 2024 1 1)) (Some "present")))))) /\
   exists a l s,
     a_student_id a = Some (student_id s) /\
     response (pg_serve plain_schema GET_attendance (by_id "")
                 (store (snd (pg_serve plain_schema POST_attendance (mark_present 1)
                                two_students))))
       = Some (mkResponse 200 (BRows (RView <$> l))) /\
     mkView (attendance_id a) (name s) (roll_number s) (date a) (status a) ∈ l) /\
  (response (pg_serve plain_schema POST_attendance mark_without_student two_students)
     = Some (mkResponse 201 (BRow (Some (RAttendance
         (mkAttendance 1 None (Some (mkDate 2024 1 1)) (Some "present")))))) /\
   exists a l,
     a_student_id a = None /\
     response (pg_serve plain_schema GET_attendance (by_id "")
                 (store (snd (pg_serve plain_schema POST_attendance mark_without_student
                                two_students))))
       = Some (mkResponse 200 (BRows (RView <$> l))) /\
     forall v, v ∈ l -> v_attendance_id v <> attendance_id a).
Proof.
  split; (split; [reflexivity|]).
  - destruct (marked_attendance_is_listed plain_schema (mark_present 1) (by_id "")
                two_students _ eq_refl eq_refl) as (a & l & _ & _ & _ & Hl & Hsome & _).
    assert (Hnn : prepareValue (prop (body (mark_present 1)) "student_id") <> None)
      by (vm_compute; discriminate).
    destruct (Hsome Hnn) as (s & _ & Hsid & Hin).
    exists a, l, s. split; [exact Hsid|]. split; [exact Hl|exact Hin].
  - destruct (marked_attendance_is_listed plain_schema mark_without_student (by_id "")
                two_students _ eq_refl eq_refl) as (a & l & _ & _ & _ & Hl & _ & Hnone).
    destruct (Hnone eq_refl) as [Hsid Hnot].
    exists a, l. split; [exact Hsid|]. split; [exact Hl|exact Hnot].
Defined.

(** X9. An attendance record created by [POST /attendance] can be taken
    out again: [DELETE /attendance/:id] with the created record's id is
    answered 200 with that record as [deleted], and both tables hold the
    rows they held before the creation. *)
Theorem created_attendance_can_be_deleted (sch : Schema) (req req' : Request)
    (t : Tables) (resp : Response) :
  response (pg_serve sch POST_attendance req t) = Some resp ->
  status_code resp = 201 ->
  exists a,
    payload resp = BRow (Some (RAttendance a)) /\
    (int_in sch (params_id req') = Some (attendance_id a) ->
     let t1 := store (snd (pg_serve sch POST_attendance req t)) in
     response (pg_serve sch DELETE_attendance_id req' t1)
       = Some (mkResponse 200
                 (BDeleted "Attendance deleted successfully" (Some (RAttendance a)))) /\
     attendance (store (snd (pg_serve sch DELETE_attendance_id req' t1)))
       = attendance t /\
     students (store (snd (pg_serve sch DELETE_attendance_id req' t1)))
       = students t).
Proof.
  intros Hresp Hst. pose proof (pg_post_attendance sch req t) as H. cbv zeta in H.
  set (out := pg_serve sch POST_attendance req t) in *.
  destruct (bind_as (int_in sch) _) as [sid|];
    [|destruct H as (_ & _ & H); read_response H Hresp; simpl in Hst; lia].
  destruct (bind_as (date_in sch) _) as [d|];
    [|destruct H as (_ & _ & H); read_response H Hresp; simpl in Hst; lia].
  destruct (attendance_ok sch _);
    [|destruct H as (_ & _ & H); read_response H Hresp; simpl in Hst; lia].
  destruct (decide (Exists _ (attendance t))) as [Hpk|Hpk];
    [destruct H as (_ & _ & H); read_response H Hresp; simpl in Hst; lia|].
  destruct (decide (fk_holds _ (students t))) as [Hfk|Hfk];
    [|destruct H as (_ & _ & H); read_response H Hresp; simpl in Hst; lia].
  destruct H as (_ & H). rewrite H. read_response H Hresp.
  eexists. split; [reflexivity|]. cbn [snd store attendance_id]. intros Hid.
  match goal with |- context [pg_serve sch DELETE_attendance_id req' ?t1] =>
    pose proof (pg_delete_attendance sch req' t1) as H2;
    set (out2 := pg_serve sch DELETE_attendance_id req' t1) in * end.
  cbv zeta in H2. rewrite Hid in H2. cbn [attendance with_attendance] in H2.
  assert (Hnone : filter (fun a => attendance_id a = attendance_seq t) (attendance t) = []).
  { apply filter_nil_not_elem. intros a Ha Hz. apply Hpk. apply Exists_exists. eauto. }
  rewrite !filter_app, Hnone, (filter_ne_no_hit _ _ _ Hnone) in H2.
  rewrite !filter_cons, filter_nil in H2. cbn [attendance_id] in H2.
  rewrite decide_True, decide_False in H2 by (try done; intros Hne; by apply Hne).
  simpl in H2. rewrite app_nil_r in H2. rewrite H2. done.
Qed.

Lemma created_attendance_can_be_deleted_witness :
  response (pg_serve plain_schema POST_attendance (mark_present 1) one_record)
    = Some (mkResponse 201 (BRow (Some (RAttendance
        (mkAttendance 2 (Some 1) (Some (mkDate 2024 1 1)) (Some "present")))))) /\
  decimal "2" = Some 2 /\
  attendance (store (snd (pg_serve plain_schema DELETE_attendance_id (by_id "2")
     (store (snd (pg_serve plain_schema POST_attendance (mark_present 1) one_record))))))
    = attendance one_record.
Proof.
  split; [reflexivity|]. split; [reflexivity|].
  destruct (created_attendance_can_be_deleted plain_schema (mark_present 1) (by_id "2")
              one_record _ eq_refl eq_refl) as (a & Ha & Hdel).
  injection Ha as <-.
  exact (proj1 (proj2 (Hdel eq_refl))).
Defined.

(** ** Deleting *)

(** X10. When [DELETE /attendance/:id] is answered 200, the [deleted] row
    is a stored record with that id; [students] is untouched; the records
    with another id stay, in order; and [GET /attendance] then lists
    exactly the rows it listed before minus those with that
    [attendance_id]. *)
Theorem delete_attendance_removes_that_record (sch : Schema) (req req' : Request)
    (t : Tables) (resp : Response) :
  response (pg_serve sch DELETE_attendance_id req t) = Some resp ->
  status_code resp = 200 ->
  let t' := store (snd (pg_serve sch DELETE_attendance_id req t)) in
  exists z a l,
    int_in sch (params_id req) = Some z /\
    a ∈ attendance t /\ attendance_id a = z /\
    payload resp = BDeleted "Attendance deleted successfully" (Some (RAttendance a)) /\
    students t' = students t /\
    attendance t' = filter (fun a => attendance_id a <> z) (attendance t) /\
    response (pg_serve sch GET_attendance req' t')
      = Some (mkResponse 200 (BRows (RView <$> l))) /\
    (forall v, v ∈ l <-> v ∈ joined t /\ v_attendance_id v <> z).
Proof.
  intros Hresp Hst t'. subst t'.
  pose proof (pg_delete_attendance sch req t) as H. cbv zeta in H.
  set (out := pg_serve sch DELETE_attendance_id req t) in *.
  destruct (int_in sch (params_id req)) as [z|];
    [|read_response H Hresp; simpl in Hst; lia].
  destruct (filter _ (attendance t)) as [|a hit] eqn:Hhit;
    [read_response H Hresp; simpl in Hst; lia|].
  assert (Ha : a ∈ filter (fun a => attendance_id a = z) (attendance t))
    by (rewrite Hhit; left).
  apply list_elem_of_filter in Ha as [Hz Ha].
  rewrite H. read_response H Hresp. rewrite pg_get_attendance. simpl.
  eexists z, a, _. do 7 (split; [done|]).
  intros v. rewrite merge_sort_Permutation. apply joined_without.
Qed.

Lemma delete_attendance_removes_that_record_witness :
  response (pg_serve plain_schema DELETE_attendance_id (by_id "1") january_then_february)
    = Some (mkResponse 200 (BDeleted "Attendance deleted successfully"
        (Some (RAttendance (mkAttendance 1 (Some 1) (Some (mkDate 2024 1 1))
                              (Some "present")))))) /\
  exists z l,
    decimal "1" = Some z /\
    response (pg_serve plain_schema GET_attendance (by_id "")
                (store (snd (pg_serve plain_schema DELETE_attendance_id (by_id "1")
                               january_then_february))))
      = Some (mkResponse 200 (BRows (RView <$> l))) /\
    (forall v, v ∈ l <-> v ∈ joined january_then_february /\ v_attendance_id v <> z).
Proof.
  split; [reflexivity|].
  destruct (delete_attendance_removes_that_record plain_schema (by_id "1") (by_id "")
              january_then_february _ eq_refl eq_refl)
    as (z & a & l & Hid & _ & _ & _ & _ & _ & Hl & Hmem).
  exists z, l. split; [exact Hid|]. split; [exact Hl|exact Hmem].
Defined.

(** X11. When [DELETE /students/:id] is answered 200, the [deleted] row is
    a stored student with that id, the students with another id stay, in
    order, and [GET /students] then lists exactly those. *)
Theorem delete_students_keeps_the_others (sch : Schema) (req req' : Request)
    (t : Tables) (resp : Response) :
  response (pg_serve sch DELETE_students_id req t) = Some resp ->
  status_code resp = 200 ->
  let t' := store (snd (pg_serve sch DELETE_students_id req t)) in
  exists z s l,
    int_in sch (params_id req) = Some z /\
    s ∈ students t /\ student_id s = z /\
    payload resp = BDeleted "Student deleted successfully" (Some (RStudent s)) /\
    students t' = filter (fun s => student_id s <> z) (students t) /\
    response (pg_serve sch GET_students req' t')
      = Some (mkResponse 200 (BRows (RStudent <$> l))) /\
    (forall s', s' ∈ l <-> s' ∈ students t /\ student_id s' <> z).
Proof.
  intros Hresp Hst t'. subst t'.
  pose proof (pg_delete_students sch req t) as H. cbv zeta in H.
  set (out := pg_serve sch DELETE_students_id req t) in *.
  destruct (int_in sch (params_id req)) as [z|];
    [|read_response H Hresp; simpl in Hst; lia].
  destruct (filter _ (students t)) as [|s hit] eqn:Hhit;
    [read_response H Hresp; simpl in Hst; lia|].
  destruct (after_delete sch z (attendance t)) as [e|la];
    [read_response H Hresp; simpl in Hst; lia|].
  assert (Hs : s ∈ filter (fun s => student_id s = z) (students t))
    by (rewrite Hhit; left).
  apply list_elem_of_filter in Hs as [Hz Hs].
  rewrite H. read_response H Hresp. rewrite pg_get_students. simpl.
  eexists z, s, _. do 6 (split; [done|]).
  intros s'. rewrite merge_sort_Permutation, list_elem_of_filter. tauto.
Qed.

Lemma delete_students_keeps_the_others_witness :
  response (pg_serve plain_schema DELETE_students_id (by_id "2") two_students)
    = Some (mkResponse 200 (BDeleted "Student deleted successfully" (Some (RStudent bela)))) /\
  exists z l,
    decimal "2" = Some z /\
    response (pg_serve plain_schema GET_students (by_id "")
                (store (snd (pg_serve plain_schema DELETE_students_id (by_id "2")
                               two_students))))
      = Some (mkResponse 200 (BRows (RStudent <$> l))) /\
    (forall s', s' ∈ l <-> s' ∈ students two_students /\ student_id s' <> z).
Proof.
  split; [reflexivity|].
  destruct (delete_students_keeps_the_others plain_schema (by_id "2") (by_id "")
              two_students _ eq_refl eq_refl)
    as (z & s & l & Hid & _ & _ & _ & _ & Hl & Hmem).
  exists z, l. split; [exact Hid|]. split; [exact Hl|exact Hmem].
Defined.

(** X12. Deleting twice: after a [DELETE /students/:id] or
    [DELETE /attendance/:id] answered 200, the same request is answered
    404 and changes nothing. *)
Theorem repeated_delete_is_404 (sch : Schema) (req : Request) (t : Tables) :
  (forall resp,
     response (pg_serve sch DELETE_students_id req t) = Some resp ->
     status_code resp = 200 ->
     let t' := store (snd (pg_serve sch DELETE_students_id req t)) in
     response (pg_serve sch DELETE_students_id req t')
       = Some (mkResponse 404 (BError "Student not found")) /\
     store (snd (pg_serve sch DELETE_students_id req t')) = t') /\
  (forall resp,
     response (pg_serve sch DELETE_attendance_id req t) = Some resp ->
     status_code resp = 200 ->
     let t' := store (snd (pg_serve sch DELETE_attendance_id req t)) in
     response (pg_serve sch DELETE_attendance_id req t')
       = Some (mkResponse 404 (BError "Attendance record not found")) /\
     store (snd (pg_serve sch DELETE_attendance_id req t')) = t').
Proof.
  split; intros resp Hresp Hst t'; subst t'.
  - pose proof (pg_delete_students sch req t) as H. cbv zeta in H.
    set (out := pg_serve sch DELETE_students_id req t) in *.
    destruct (int_in sch (params_id req)) as [z|] eqn:Hid;
      [|read_response H Hresp; simpl in Hst; lia].
    destruct (filter _ (students t)) as [|s hit] eqn:Hhit;
      [read_response H Hresp; simpl in Hst; lia|].
    destruct (after_delete sch z (attendance t)) as [e|l];
      [read_response H Hresp; simpl in Hst; lia|].
    rewrite H. cbn [snd store].
    match goal with |- context [pg_serve sch DELETE_students_id req ?t1] =>
      pose proof (pg_delete_students sch req t1) as H2 end.
    cbv zeta in H2. rewrite Hid in H2.
    cbn [students attendance with_attendance] in H2.
    rewrite filter_eq_after_ne in H2. rewrite H2. done.
  - pose proof (pg_delete_attendance sch req t) as H. cbv zeta in H.
    set (out := pg_serve sch DELETE_attendance_id req t) in *.
    destruct (int_in sch (params_id req)) as [z|] eqn:Hid;
      [|read_response H Hresp; simpl in Hst; lia].
    destruct (filter _ (attendance t)) as [|s hit] eqn:Hhit;
      [read_response H Hresp; simpl in Hst; lia|].
    rewrite H. cbn [snd store].
    match goal with |- context [pg_serve sch DELETE_attendance_id req ?t1] =>
      pose proof (pg_delete_attendance sch req t1) as H2 end.
    cbv zeta in H2. rewrite Hid in H2.
    cbn [students attendance with_attendance] in H2.
    rewrite filter_eq_after_ne in H2. rewrite H2. done.
Qed.

Lemma repeated_delete_is_404_witness :
  response (pg_serve plain_schema DELETE_students_id (by_id "2") two_students)
    = Some (mkResponse 200 (BDeleted "Student deleted successfully" (Some (RStudent bela)))) /\
  response (pg_serve plain_schema DELETE_students_id (by_id "2")
              (store (snd (pg_serve plain_schema DELETE_students_id (by_id "2")
                             two_students))))
    = Some (mkResponse 404 (BError "Student not found")).
Proof.
  split; [reflexivity|].
  exact (proj1 (proj1 (repeated_delete_is_404 plain_schema (by_id "2") two_students)
                  _ eq_refl eq_refl)).
Defined.

(** ** Updating *)

(** X13. [PUT /students/:id], however it is answered, leaves [attendance]
    and both sequences alone, keeps every student row in place with its
    [student_id], and leaves a student with another id as it is. *)
Theorem put_students_touches_only_that_student (sch : Schema) (req : Request) (t : Tables) :
  let t' := store (snd (pg_serve sch PUT_students_id req t)) in
  attendance t' = attendance t /\
  students_seq t' = students_seq t /\ attendance_seq t' = attendance_seq t /\
  Forall2 (fun s s' =>
             student_id s' = student_id s /\
             (int_in sch (params_id req) <> Some (student_id s) -> s' = s))
    (students t) (students t').
Proof.
  intros t'. subst t'.
  pose proof (pg_put_students sch req t) as H. cbv zeta in H.
  set (out := pg_serve sch PUT_students_id req t) in *.
  assert (Hsame : Forall2 (fun s s' => student_id s' = student_id s /\
             (int_in sch (params_id req) <> Some (student_id s) -> s' = s))
             (students t) (students t))
    by (apply Forall_Forall2_diag, Forall_forall; auto).
  destruct (int_in sch (params_id req)) as [z|]; [|rewrite H; done].
  destruct (forallb _ _); [|rewrite H; done].
  destruct (filter _ (students t)) as [|s hit]; simpl in H; rewrite H; [done|].
  simpl. repeat split; try done.
  eapply Forall2_impl; [apply update_students_frame|].
  simpl. intros x y (? & Hne & _). split; [done|]. intros Hx. apply Hne. congruence.
Qed.

(** X14. After a [PUT /students/:id] answered 200, [GET /students] lists
    as many rows as before; the row sent back is among them, and every
    listed row with that id carries the bound [name] and [roll_number]. *)
Theorem updated_student_is_listed (sch : Schema) (req req' : Request)
    (t : Tables) (resp : Response) :
  response (pg_serve sch PUT_students_id req t) = Some resp ->
  status_code resp = 200 ->
  exists z l,
    int_in sch (params_id req) = Some z /\
    response (pg_serve sch GET_students req'
                (store (snd (pg_serve sch PUT_students_id req t))))
      = Some (mkResponse 200 (BRows (RStudent <$> l))) /\
    length l = length (students t) /\
    BRow (Some (RStudent (mkStudent z (prepareValue (prop (body req) "name"))
                            (prepareValue (prop (body req) "roll_number")))))
      = payload resp /\
    mkStudent z (prepareValue (prop (body req) "name"))
      (prepareValue (prop (body req) "roll_number")) ∈ l /\
    (forall s, s ∈ l -> student_id s = z ->
       name s = prepareValue (prop (body req) "name") /\
       roll_number s = prepareValue (prop (body req) "roll_number")).
Proof.
  intros Hresp Hst.
  pose proof (pg_put_students sch req t) as H. cbv zeta in H.
  set (out := pg_serve sch PUT_students_id req t) in *.
  destruct (int_in sch (params_id req)) as [z|] eqn:Hid;
    [|read_response H Hresp; simpl in Hst; lia].
  destruct (forallb _ _) eqn:Hok; [|read_response H Hresp; simpl in Hst; lia].
  destruct (filter _ (students t)) as [|s0 hit] eqn:Hhit; simpl in H;
    [read_response H Hresp; simpl in Hst; lia|].
  assert (Hs0 : s0 ∈ filter (fun s => student_id s = z) (students t))
    by (rewrite Hhit; left).
  apply list_elem_of_filter in Hs0 as [Hz0 Hs0].
  rewrite H. cbn [snd store]. read_response H Hresp. rewrite pg_get_students.
  cbn [students with_students].
  eexists z, _. split; [done|]. split; [reflexivity|].
  split; [|split; [|split]].
  - rewrite merge_sort_Permutation. unfold update_students. by rewrite length_fmap.
  - simpl. unfold set_student. by rewrite Hz0.
  - rewrite merge_sort_Permutation. unfold update_students.
    apply list_elem_of_fmap. exists s0. rewrite decide_True by done.
    unfold set_student. by rewrite Hz0.
  - intros s Hs Hz. rewrite merge_sort_Permutation in Hs.
    unfold update_students in Hs. apply list_elem_of_fmap in Hs as (s1 & -> & Hs1).
    case_decide as Hz1; [done|]. done.
Qed.

Lemma updated_student_is_listed_witness :
  response (pg_serve plain_schema PUT_students_id
              (mkRequest "2" (body new_student)) two_students)
    = Some (mkResponse 200 (BRow (Some (RStudent (mkStudent 2 (Some "Chen") (Some "103")))))) /\
  exists z l,
    decimal "2" = Some z /\
    response (pg_serve plain_schema GET_students (by_id "")
                (store (snd (pg_serve plain_schema PUT_students_id
                               (mkRequest "2" (body new_student)) two_students))))
      = Some (mkResponse 200 (BRows (RStudent <$> l))) /\
    mkStudent z (Some "Chen") (Some "103") ∈ l.
Proof.
  split; [reflexivity|].
  destruct (updated_student_is_listed plain_schema (mkRequest "2" (body new_student))
              (by_id "") two_students _ eq_refl eq_refl)
    as (z & l & Hid & Hl & _ & _ & Hin & _).
  exists z, l. split; [exact Hid|]. split; [exact Hl|exact Hin].
Defined.

(** X15. Updating twice: after a [PUT /students/:id] or
    [PUT /attendance/:id] answered 200, the same request is answered 200
    with the same body and leaves the store as the first one left it. *)
Theorem repeated_put_is_idempotent (sch : Schema) (req : Request) (t : Tables) :
  (forall resp,
     response (pg_serve sch PUT_students_id req t) = Some resp ->
     status_code resp = 200 ->
     let t' := store (snd (pg_serve sch PUT_students_id req t)) in
     response (pg_serve sch PUT_students_id req t') = Some resp /\
     store (snd (pg_serve sch PUT_students_id req t')) = t') /\
  (forall resp,
     response (pg_serve sch PUT_attendance_id req t) = Some resp ->
     status_code resp = 200 ->
     let t' := store (snd (pg_serve sch PUT_attendance_id req t)) in
     response (pg_serve sch PUT_attendance_id req t') = Some resp /\
     store (snd (pg_serve sch PUT_attendance_id req t')) = t').
Proof.
  split; intros resp Hresp Hst t'; subst t'.
  - pose proof (pg_put_students sch req t) as H. cbv zeta in H.
    set (out := pg_serve sch PUT_students_id req t) in *.
    destruct (int_in sch (params_id req)) as [z|] eqn:Hid;
      [|read_response H Hresp; simpl in Hst; lia].
    destruct (forallb _ _) eqn:Hok; [|read_response H Hresp; simpl in Hst; lia].
    destruct (set_student _ _ <$> filter _ (students t)) as [|s' hit] eqn:Hhit;
      [read_response H Hresp; simpl in Hst; lia|].
    rewrite H. cbn [snd store]. read_response H Hresp.
    match goal with |- context [pg_serve sch PUT_students_id req ?t1] =>
      pose proof (pg_put_students sch req t1) as H2;
      set (out2 := pg_serve sch PUT_students_id req t1) in * end.
    cbv zeta in H2. rewrite Hid in H2. cbn [students with_students] in H2.
    rewrite filter_update_students, set_student_twice, Hhit, Hok in H2.
    rewrite update_students_twice in H2. rewrite H2. done.
  - pose proof (pg_put_attendance_cases sch req t) as H. cbv zeta in H.
    set (out := pg_serve sch PUT_attendance_id req t) in *.
    destruct (int_in sch (params_id req)) as [z|] eqn:Hid;
      [|read_response H Hresp; simpl in Hst; lia].
    destruct (forallb _ _) eqn:Hok; [|read_response H Hresp; simpl in Hst; lia].
    destruct (set_status _ <$> filter _ (attendance t)) as [|s' hit] eqn:Hhit;
      [read_response H Hresp; simpl in Hst; lia|].
    rewrite H. cbn [snd store]. read_response H Hresp.
    match goal with |- context [pg_serve sch PUT_attendance_id req ?t1] =>
      pose proof (pg_put_attendance_cases sch req t1) as H2;
      set (out2 := pg_serve sch PUT_attendance_id req t1) in * end.
    cbv zeta in H2. rewrite Hid in H2. cbn [attendance with_attendance] in H2.
    rewrite filter_update_attendance, set_status_twice, Hhit, Hok in H2.
    rewrite update_attendance_twice in H2. rewrite H2. done.
Qed.

Lemma repeated_put_is_idempotent_witness :
  response (pg_serve plain_schema PUT_attendance_id mark_absent one_record)
    = Some (mkResponse 200 (BRow (Some (RAttendance
        (mkAttendance 1 (Some 1) (Some (mkDate 2024 1 1)) (Some "absent")))))) /\
  response (pg_serve plain_schema PUT_attendance_id mark_absent
              (store (snd (pg_serve plain_schema PUT_attendance_id mark_absent one_record))))
    = Some (mkResponse 200 (BRow (Some (RAttendance
        (mkAttendance 1 (Some 1) (Some (mkDate 2024 1 1)) (Some "absent")))))).
Proof.
  split; [reflexivity|].
  exact (proj1 (proj2 (repeated_put_is_idempotent plain_schema mark_absent one_record)
                  _ eq_refl eq_refl)).
Defined.

(** ** Requests that change nothing *)

(** X16. A request answered 404 has changed nothing and logged nothing:
    the path id was an integer that no row of the route's table carries,
    and the store is exactly as before. *)
Theorem not_found_leaves_store_unchanged (sch : Schema) (r : Route) (req : Request)
    (t : Tables) (resp : Response) :
  response (pg_serve sch r req t) = Some resp ->
  status_code resp = 404 ->
  store (snd (pg_serve sch r req t)) = t /\
  console (snd (pg_serve sch r req t)) = [] /\
  exists z, int_in sch (params_id req) = Some z /\
    match r with
    | PUT_students_id | DELETE_students_id =>
        forall s, s ∈ students t -> student_id s <> z
    | _ => forall a, a ∈ attendance t -> attendance_id a <> z
    end.
Proof.
  intros Hresp Hst.
  assert (Hnone : forall {A} (f : A -> Z) (z : Z) (l : list A),
            filter (fun a => f a = z) l = [] -> forall a, a ∈ l -> f a <> z).
  { intros A f z l Hf a Ha Hz.
    assert (Hin : a ∈ filter (fun a => f a = z) l) by (apply list_elem_of_filter; done).
    rewrite Hf in Hin. by apply not_elem_of_nil in Hin. }
  destruct r.
  - rewrite pg_get_students in Hresp. unfold response in Hresp. simpl in Hresp.
    injection Hresp as <-. simpl in Hst. lia.
  - rewrite pg_get_attendance in Hresp. unfold response in Hresp. simpl in Hresp.
    injection Hresp as <-. simpl in Hst. lia.
  - pose proof (pg_post_students sch req t) as H. cbv zeta in H.
    set (out := pg_serve sch POST_students req t) in *.
    destruct (student_ok sch _); [|read_response H Hresp; simpl in Hst; lia].
    destruct (decide (Exists _ (students t)));
      read_response H Hresp; simpl in Hst; lia.
  - pose proof (pg_post_attendance sch req t) as H. cbv zeta in H.
    set (out := pg_serve sch POST_attendance req t) in *.
    destruct (bind_as (int_in sch) _) as [sid|];
      [|destruct H as (_ & _ & H); read_response H Hresp; simpl in Hst; lia].
    destruct (bind_as (date_in sch) _) as [d|];
      [|destruct H as (_ & _ & H); read_response H Hresp; simpl in Hst; lia].
    destruct (attendance_ok sch _);
      [|destruct H as (_ & _ & H); read_response H Hresp; simpl in Hst; lia].
    destruct (decide (Exists _ (attendance t)));
      [destruct H as (_ & _ & H); read_response H Hresp; simpl in Hst; lia|].
    destruct (decide (fk_holds _ (students t)));
      [destruct H as (_ & H)|destruct H as (_ & _ & H)];
      read_response H Hresp; simpl in Hst; lia.
  - pose proof (pg_put_students sch req t) as H. cbv zeta in H.
    set (out := pg_serve sch PUT_students_id req t) in *.
    destruct (int_in sch (params_id req)) as [z|];
      [|read_response H Hresp; simpl in Hst; lia].
    destruct (forallb _ _); [|read_response H Hresp; simpl in Hst; lia].
    destruct (filter _ (students t)) as [|s hit] eqn:Hhit; simpl in H;
      [|read_response H Hresp; simpl in Hst; lia].
    rewrite H. simpl. split; [done|]. split; [done|]. exists z.
      split; [done|]. by apply (Hnone _ student_id).
  - pose proof (pg_put_attendance_cases sch req t) as H. cbv zeta in H.
    set (out := pg_serve sch PUT_attendance_id req t) in *.
    destruct (int_in sch (params_id req)) as [z|];
      [|read_response H Hresp; simpl in Hst; lia].
    destruct (forallb _ _); [|read_response H Hresp; simpl in Hst; lia].
    destruct (filter _ (attendance t)) as [|s hit] eqn:Hhit; simpl in H;
      [|read_response H Hresp; simpl in Hst; lia].
    rewrite H. simpl. split; [done|]. split; [done|]. exists z.
      split; [done|]. by apply (Hnone _ attendance_id).
  - pose proof (pg_delete_students sch req t) as H. cbv zeta in H.
    set (out := pg_serve sch DELETE_students_id req t) in *.
    destruct (int_in sch (params_id req)) as [z|];
      [|read_response H Hresp; simpl in Hst; lia].
    destruct (filter _ (students t)) as [|s hit] eqn:Hhit.
    + rewrite H. simpl. split; [done|]. split; [done|]. exists z.
      split; [done|]. by apply (Hnone _ student_id).
    + destruct (after_delete sch z (attendance t));
        read_response H Hresp; simpl in Hst; lia.
  - pose proof (pg_delete_attendance sch req t) as H. cbv zeta in H.
    set (out := pg_serve sch DELETE_attendance_id req t) in *.
    destruct (int_in sch (params_id req)) as [z|];
      [|read_response H Hresp; simpl in Hst; lia].
    destruct (filter _ (attendance t)) as [|s hit] eqn:Hhit;
      [|read_response H Hresp; simpl in Hst; lia].
    rewrite H. simpl. split; [done|]. split; [done|]. exists z.
      split; [done|]. by apply (Hnone _ attendance_id).
Qed.

Lemma not_found_leaves_store_unchanged_witness :
  response (pg_serve plain_schema DELETE_attendance_id (by_id "9") one_record)
    = Some (mkResponse 404 (BError "Attendance record not found")) /\
  store (snd (pg_serve plain_schema DELETE_attendance_id (by_id "9") one_record))
    = one_record.
Proof.
  split; [reflexivity|].
  exact (proj1 (not_found_leaves_store_unchanged plain_schema DELETE_attendance_id
                  (by_id "9") one_record _ eq_refl eq_refl)).
Defined.

(** X17. On each of the four routes with a path id, an id the store does
    not read as an integer is passed on unchecked, the store rejects the
    statement, and the answer is 500 with the route's error text; the
    rejection is logged and the store is unchanged. *)
Theorem malformed_id_is_500 (sch : Schema) (r : Route) (req : Request) (t : Tables) :
  checks_row_count r = true ->
  int_in sch (params_id req) = None ->
  pg_serve sch r req t =
    (Normal tt,
     mkWorld t [mkResponse 500 (BError (catch_message r))]
       [InvalidTextRepresentation] [statement_of r req]).
Proof.
  intros Hr Hid. destruct r; try discriminate Hr.
  - pose proof (pg_put_students sch req t) as H. cbv zeta in H. by rewrite Hid in H.
  - pose proof (pg_put_attendance_cases sch req t) as H. cbv zeta in H. by rewrite Hid in H.
  - pose proof (pg_delete_students sch req t) as H. cbv zeta in H. by rewrite Hid in H.
  - pose proof (pg_delete_attendance sch req t) as H. cbv zeta in H. by rewrite Hid in H.
Qed.

Lemma malformed_id_is_500_witness :
  checks_row_count DELETE_attendance_id = true /\
  decimal "1; DROP TABLE students" = None /\
  pg_serve plain_schema DELETE_attendance_id (by_id "1; DROP TABLE students") one_record =
    (Normal tt,
     mkWorld one_record [mkResponse 500 (BError "Failed to delete attendance")]
       [InvalidTextRepresentation]
       [DeleteAttendance (JsString "1; DROP TABLE students")]).
Proof.
  split; [reflexivity|]. split; [reflexivity|].
  exact (malformed_id_is_500 plain_schema DELETE_attendance_id
           (by_id "1; DROP TABLE students") one_record eq_refl eq_refl).
Defined.

(** X18. A request answered 500 has written no row: both tables hold the
    rows they held before, and exactly one error was logged. *)
Theorem rejected_request_keeps_every_row (sch : Schema) (r : Route) (req : Request)
    (t : Tables) (resp : Response) :
  response (pg_serve sch r req t) = Some resp ->
  status_code resp = 500 ->
  students (store (snd (pg_serve sch r req t))) = students t /\
  attendance (store (snd (pg_serve sch r req t))) = attendance t /\
  exists e, console (snd (pg_serve sch r req t)) = [e].
Proof.
  intros Hresp Hst. destruct r.
  - rewrite pg_get_students in Hresp. unfold response in Hresp. simpl in Hresp.
    injection Hresp as <-. simpl in Hst. lia.
  - rewrite pg_get_attendance in Hresp. unfold response in Hresp. simpl in Hresp.
    injection Hresp as <-. simpl in Hst. lia.
  - pose proof (pg_post_students sch req t) as H. cbv zeta in H.
    set (out := pg_serve sch POST_students req t) in *.
    destruct (student_ok sch _); [|rewrite H; simpl; eauto].
    destruct (decide (Exists _ (students t))); [rewrite H; simpl; eauto|].
    read_response H Hresp. simpl in Hst. lia.
  - pose proof (pg_post_attendance sch req t) as H. cbv zeta in H.
    set (out := pg_serve sch POST_attendance req t) in *.
    destruct (bind_as (int_in sch) _) as [sid|];
      [|destruct H as (_ & _ & H); rewrite H; simpl; eauto].
    destruct (bind_as (date_in sch) _) as [d|];
      [|destruct H as (_ & _ & H); rewrite H; simpl; eauto].
    destruct (attendance_ok sch _);
      [|destruct H as (_ & _ & H); rewrite H; simpl; eauto].
    destruct (decide (Exists _ (attendance t)));
      [destruct H as (_ & _ & H); rewrite H; simpl; eauto|].
    destruct (decide (fk_holds _ (students t)));
      [destruct H as (_ & H)|destruct H as (_ & _ & H); rewrite H; simpl; eauto].
    read_response H Hresp. simpl in Hst. lia.
  - pose proof (pg_put_students sch req t) as H. cbv zeta in H.
    set (out := pg_serve sch PUT_students_id req t) in *.
    destruct (int_in sch (params_id req)) as [z|]; [|rewrite H; simpl; eauto].
    destruct (forallb _ _); [|rewrite H; simpl; eauto].
    destruct (filter _ (students t)) as [|s hit]; simpl in H;
      read_response H Hresp; simpl in Hst; lia.
  - pose proof (pg_put_attendance_cases sch req t) as H. cbv zeta in H.
    set (out := pg_serve sch PUT_attendance_id req t) in *.
    destruct (int_in sch (params_id req)) as [z|]; [|rewrite H; simpl; eauto].
    destruct (forallb _ _); [|rewrite H; simpl; eauto].
    destruct (filter _ (attendance t)) as [|s hit]; simpl in H;
      read_response H Hresp; simpl in Hst; lia.
  - pose proof (pg_delete_students sch req t) as H. cbv zeta in H.
    set (out := pg_serve sch DELETE_students_id req t) in *.
    destruct (int_in sch (params_id req)) as [z|]; [|rewrite H; simpl; eauto].
    destruct (filter _ (students t)) as [|s hit];
      [read_response H Hresp; simpl in Hst; lia|].
    destruct (after_delete sch z (attendance t)); [rewrite H; simpl; eauto|].
    read_response H Hresp. simpl in Hst. lia.
  - pose proof (pg_delete_attendance sch req t) as H. cbv zeta in H.
    set (out := pg_serve sch DELETE_attendance_id req t) in *.
    destruct (int_in sch (params_id req)) as [z|]; [|rewrite H; simpl; eauto].
    destruct (filter _ (attendance t)) as [|s hit];
      read_response H Hresp; simpl in Hst; lia.
Qed.

Lemma rejected_request_keeps_every_row_witness :
  response (pg_serve plain_schema DELETE_students_id (by_id "1") one_record)
    = Some (mkResponse 500 (BError "Failed to delete student")) /\
  students (store (snd (pg_serve plain_schema DELETE_students_id (by_id "1") one_record)))
    = students one_record /\
  attendance (store (snd (pg_serve plain_schema DELETE_students_id (by_id "1") one_record)))
    = attendance one_record.
Proof.
  split; [reflexivity|].
  destruct (rejected_request_keeps_every_row plain_schema DELETE_students_id (by_id "1")
              one_record _ eq_refl eq_refl) as (Hs & Ha & _).
  split; [exact Hs|exact Ha].
Defined.

